(** * LazyAuth: the OAuth2 login flow and its session tokens

    A shallow embedding of [lazyauth/auth.py], [lazyauth/models.py] and
    [lazyauth/config.py].

    - Instants ([datetime.now(timezone.utc)]) are integers: microseconds
      since the epoch, the resolution of a Python [datetime].
    - The module-level dict [sessions] is a [gmap string (string * Z)]
      threaded through the handlers.
    - Python exceptions are the [Raise] branch of [result]; a [try/except]
      is a [match] that catches exactly the classes the source names.
    - Third-party code is not part of the repository.  python-jose's
      [jwt.encode] and [jwt.decode] are written out as the compact JWS
      serialization they implement, over parameters for the MAC, the
      base64url and JSON codecs and the registered-claim checks other than
      [exp]; pydantic's conversion of a boolean or a string to an [int]
      field is a parameter too; the provider behind httpx is an argument
      of the callback. *)

From Stdlib Require Import ZArith Ascii String List Bool Lia DecimalString.
From stdpp Require Import base option gmap strings list fin_maps.

Set Warnings "-register-all".

Local Open Scope Z_scope.
Local Open Scope string_scope.

(** ** JSON values and Python dicts *)

(** A decoded JSON document.  Objects are association lists in insertion
    order, as Python dicts are.  Numbers are integers here. *)
Inductive json : Type :=
  | JNull
  | JBool (b : bool)
  | JNum (n : Z)
  | JStr (s : string)
  | JArr (items : list json)
  | JObj (fields : list (string * json)).

Definition dict : Type := list (string * json).

(** [key in d] and [d[key]]: the first binding of [key]. *)
Fixpoint dict_lookup (key : string) (d : dict) : option json :=
  match d with
  | [] => None
  | (k, v) :: rest => if String.eqb k key then Some v else dict_lookup key rest
  end.

(** [d.get(key)]: [None] (here [JNull]) when the key is absent. *)
Definition dict_get (key : string) (d : dict) : json :=
  default JNull (dict_lookup key d).

(** [d.get(key, dflt)]: the default only replaces an absent key, a key
    bound to [None] yields [None]. *)
Definition dict_get_default (key : string) (dflt : json) (d : dict) : json :=
  default dflt (dict_lookup key d).

(** Python truthiness of a JSON value, as tested by [or] and [if]. *)
Definition truthy (v : json) : bool :=
  match v with
  | JNull => false
  | JBool b => b
  | JNum n => negb (Z.eqb n 0)
  | JStr s => negb (String.eqb s "")
  | JArr items => match items with [] => false | _ => true end
  | JObj fields => match fields with [] => false | _ => true end
  end.

(** [a or b] *)
Definition py_or (a b : json) : json := if truthy a then a else b.

(** ** Exceptions *)

Inductive exn : Type :=
  | HTTPException (status_code : Z) (detail : string)
  | JWTError
  | ValidationError
  | HTTPError (msg : string)
  | JSONDecodeError
  | TypeError
  | AttributeError.

Inductive result (A : Type) : Type :=
  | Return (a : A)
  | Raise (e : exn).
Arguments Return {A} a.
Arguments Raise {A} e.

Definition bind {A B : Type} (r : result A) (k : A -> result B) : result B :=
  match r with
  | Return a => k a
  | Raise e => Raise e
  end.

Notation "'let!' x ':=' r 'in' k" := (bind r (fun x => k))
  (at level 10, x name, r at level 100, k at level 200).

(** ** models.py *)

Record User : Type := mkUser {
  id : string;
  email : option string;
  name : option string;
  provider : string;
  provider_data : dict
}.

Record Token : Type := mkToken {
  access_token : string;
  token_type : string;
  expires_in : option Z
}.

Record OAuth2Token : Type := mkOAuth2Token {
  oauth_access_token : string;
  oauth_token_type : string;
  oauth_expires_in : option Z;
  oauth_refresh_token : option string;
  oauth_scope : option string
}.

(** Field validation of the pydantic models (pydantic 2, as
    [pydantic_settings] requires): a [str] field takes a JSON string only,
    an [Optional[...]] field also takes [None]; anything else is a
    [ValidationError]. *)
Definition validate_str (v : json) : result string :=
  match v with
  | JStr s => Return s
  | _ => Raise ValidationError
  end.

Definition validate_opt_str (v : json) : result (option string) :=
  match v with
  | JNull => Return None
  | JStr s => Return (Some s)
  | _ => Raise ValidationError
  end.

(** An [Optional[int]] field takes [None] and an integer, and in
    pydantic's lax mode also what converts to an integer: a boolean and a
    string spelling a number.  [lax_int] is that conversion, [None] when
    pydantic refuses the value.  Arrays and objects never convert, and a
    number of [json] is an integer already. *)
Definition validate_opt_int (lax_int : json -> option Z) (v : json)
  : result (option Z) :=
  match v with
  | JNull => Return None
  | JNum n => Return (Some n)
  | JBool _ | JStr _ =>
      match lax_int v with
      | Some n => Return (Some n)
      | None => Raise ValidationError
      end
  | JArr _ | JObj _ => Raise ValidationError
  end.

(** [User(id=.., email=.., name=.., provider=.., provider_data=..)] *)
Definition User_new (v_id v_email v_name v_provider : json) (data : dict)
  : result User :=
  let! i := validate_str v_id in
  let! e := validate_opt_str v_email in
  let! n := validate_opt_str v_name in
  let! p := validate_str v_provider in
  Return (mkUser i e n p data).

(** [OAuth2Token] built from the keys of [token_data]: absent optional
    fields default to [None], extra keys are ignored. *)
Definition OAuth2Token_new (lax_int : json -> option Z) (token_data : dict)
  : result OAuth2Token :=
  match dict_lookup "access_token" token_data,
        dict_lookup "token_type" token_data with
  | Some a, Some t =>
      let! a' := validate_str a in
      let! t' := validate_str t in
      let! e := validate_opt_int lax_int (dict_get "expires_in" token_data) in
      let! r := validate_opt_str (dict_get "refresh_token" token_data) in
      let! s := validate_opt_str (dict_get "scope" token_data) in
      Return (mkOAuth2Token a' t' e r s)
  | _, _ => Raise ValidationError
  end.

(** ** config.py *)

Record Settings : Type := mkSettings {
  oauth2_client_id : string;
  oauth2_client_secret : string;
  oauth2_authorization_url : string;
  oauth2_token_url : string;
  oauth2_user_info_url : string;
  oauth2_redirect_uri : string;
  jwt_secret_key : string;
  jwt_algorithm : string;
  jwt_expiration_minutes : Z
}.

(** ** The state store: [sessions] and [cleanup_expired_sessions] *)

(** [sessions: Dict[str, tuple[str, datetime]]] *)
Abbreviation store := (gmap string (string * Z)).

(** [(current_time - timestamp).total_seconds() > 600] on microsecond
    instants. *)
Definition expired (current_time : Z) (entry : string * Z) : bool :=
  Z.ltb (600 * 1000000) (current_time - entry.2).

(** The list comprehension of [cleanup_expired_sessions]. *)
Definition expired_states (current_time : Z) (sessions : store) : list string :=
  (filter (fun kv => expired current_time kv.2 = true) (map_to_list sessions)).*1.

(** [for state in expired: del sessions[state]] *)
Definition cleanup_expired_sessions (current_time : Z) (sessions : store) : store :=
  foldr delete sessions (expired_states current_time sessions).

(** ** Requests *)

(** What the handlers read of a request:
    [request.headers.get("Authorization")] and
    [request.cookies.get("access_token")]. *)
Record Request : Type := mkRequest {
  header_Authorization : option string;
  cookie_access_token : option string
}.

(** [s.replace("Bearer ", "")]: every non-overlapping occurrence, scanning
    from the left, is dropped.  [skip] counts the characters of an
    occurrence still to drop. *)
Fixpoint drop_bearer (skip : nat) (s : string) : string :=
  match s with
  | EmptyString => EmptyString
  | String c rest =>
      match skip with
      | S k => drop_bearer k rest
      | O =>
          if String.prefix "Bearer " s then drop_bearer 6 rest
          else String c (drop_bearer 0 rest)
      end
  end.

Definition replace_bearer (s : string) : string := drop_bearer 0 s.

(** ** Splitting a compact token at its dots *)

Definition dot : ascii := "."%char.

(** [s.split(".", 1)] unpacked into two names: the parts around the first
    dot; no dot is the [ValueError] of the unpacking. *)
Fixpoint split_first (s : string) : option (string * string) :=
  match s with
  | EmptyString => None
  | String c rest =>
      if Ascii.eqb c dot then Some (EmptyString, rest)
      else match split_first rest with
           | Some (a, b) => Some (String c a, b)
           | None => None
           end
  end.

(** [s.rsplit(".", 1)] unpacked into two names: the parts around the last
    dot. *)
Fixpoint rsplit_last (s : string) : option (string * string) :=
  match s with
  | EmptyString => None
  | String c rest =>
      match rsplit_last rest with
      | Some (a, b) => Some (String c a, b)
      | None => if Ascii.eqb c dot then Some (EmptyString, rest) else None
      end
  end.

(** No dot occurs in [s]. *)
Fixpoint dotless (s : string) : bool :=
  match s with
  | EmptyString => true
  | String c rest => negb (Ascii.eqb c dot) && dotless rest
  end.

(** The string [s] with its byte at position [i] replaced by [c]. *)
Fixpoint alter_byte (i : nat) (c : ascii) (s : string) : string :=
  match s with
  | EmptyString => EmptyString
  | String a rest =>
      match i with
      | O => String c rest
      | S k => String a (alter_byte k c rest)
      end
  end.

(** No space occurs in [s]. *)
Fixpoint spaceless (s : string) : bool :=
  match s with
  | EmptyString => true
  | String c rest => negb (Ascii.eqb c " ") && spaceless rest
  end.

(** The number of dots of [s]. *)
Fixpoint count_dots (s : string) : nat :=
  match s with
  | EmptyString => O
  | String c rest => if Ascii.eqb c dot then S (count_dots rest) else count_dots rest
  end.

(** ** The outbound HTTP client (httpx) *)

(** What a call of [client.post] or [client.get] comes back with: a
    transport failure ([httpx.HTTPError] raised by the call itself), or a
    response with its status code and its body; [body = None] is a body
    that [response.json()] cannot parse. *)
Inductive reply : Type :=
  | TransportError (msg : string)
  | Response (status_code : Z) (body : option json).

Record AsyncClient : Type := mkClient {
  client_post : string -> list (string * string) -> reply;
  client_get : string -> list (string * string) -> reply
}.

(** The requests a handler has sent, oldest first. *)
Inductive call : Type :=
  | Post (url : string) (data : list (string * string))
  | Get (url : string) (headers : list (string * string)).

(** [response.raise_for_status()] passes on a 2xx status only. *)
Definition is_success (status_code : Z) : bool :=
  Z.leb 200 status_code && Z.leb status_code 299.

(** [response.raise_for_status()] followed by [response.json()] *)
Definition checked_json (r : reply) : result json :=
  match r with
  | TransportError msg => Raise (HTTPError msg)
  | Response status_code body =>
      if is_success status_code then
        match body with
        | Some j => Return j
        | None => Raise JSONDecodeError
        end
      else Raise (HTTPError "HTTPStatusError")
  end.

(** A handler's run: what it returns or raises, the [sessions] dict it
    leaves, and the requests it sent to the provider. *)
Record run (A : Type) : Type := mkRun {
  outcome : result A;
  sessions_after : store;
  requests_sent : list call
}.
Arguments mkRun {A} _ _ _.
Arguments outcome {A} _.
Arguments sessions_after {A} _.
Arguments requests_sent {A} _.

(** The cookie set by [response.set_cookie]. *)
Record Cookie : Type := mkCookie {
  cookie_key : string;
  cookie_value : string;
  cookie_httponly : bool;
  cookie_max_age : option Z;
  cookie_samesite : string;
  cookie_secure : bool
}.

Record CallbackBody : Type := mkCallbackBody {
  cb_message : string;
  cb_user : User;
  cb_token : Token;
  cb_cookie : Cookie
}.

Record LoginBody : Type := mkLoginBody {
  authorization_url : string;
  login_state : string;
  login_message : string
}.

Record StatusBody : Type := mkStatusBody {
  authenticated : bool;
  status_user : option User
}.

(** The answer of [protected_route] in main.py. *)
Record ProtectedBody : Type := mkProtectedBody {
  protected_message : string;
  protected_user : User;
  access_granted : bool
}.

(** [timegm(t.utctimetuple())]: the whole seconds of an instant. *)
Definition timegm (t : Z) : Z := t / 1000000.

(** [timedelta(minutes=m)] in microseconds. *)
Definition minutes (m : Z) : Z := m * 60 * 1000000.

Definition opt_json (o : option string) : json :=
  match o with
  | Some s => JStr s
  | None => JNull
  end.

Section Auth.

(** *** Third-party code, taken as parameters *)

(** The keyed MAC behind the HS* algorithms: algorithm name, key, message. *)
Variable mac : string -> string -> string -> string.

(** [jose.utils.base64url_encode] and [base64url_decode]. *)
Variable base64url_encode : string -> string.
Variable base64url_decode : string -> option string.

(** [json.dumps] and [json.loads]. *)
Variable json_dumps : json -> string.
Variable json_loads : string -> option json.

(** The checks of python-jose's claim validation other than the one of an
    integer [exp]: [iat], [nbf], [aud], [iss], [sub], [jti], [at_hash],
    and an [exp] that is not an integer, at the given whole second.
    [false] is a claim set on which one of these checks raises. *)
Variable other_claims_valid : dict -> Z -> bool.

(** What such a failing check raises.  The library converts a time claim
    with [int(...)] and catches [ValueError] only, so a time claim that is
    null, an array or an object lets a [TypeError] escape from
    [jwt.decode]; every other failure is a [JWTClaimsError].
    [claims_type_error] tells the two apart and is consulted only where
    [other_claims_valid] is [false]. *)
Variable claims_type_error : dict -> Z -> bool.

(** [urllib.parse.urlencode] *)
Variable urlencode : list (string * string) -> string.

(** [settings = Settings()] *)
Variable settings : Settings.

(** pydantic's lax conversion to [int], see [validate_opt_int]. *)
Variable lax_int : json -> option Z.

(** *** python-jose: [jwt.encode] and [jwt.decode] *)

Definition jws_header (algorithm : string) : json :=
  JObj [("alg", JStr algorithm); ("typ", JStr "JWT")].

Definition header_segment (algorithm : string) : string :=
  base64url_encode (json_dumps (jws_header algorithm)).

Definition claims_segment (claims : dict) : string :=
  base64url_encode (json_dumps (JObj claims)).

Definition signing_input (claims : dict) (algorithm : string) : string :=
  header_segment algorithm ++ "." ++ claims_segment claims.

(** [jwt.encode(claims, key, algorithm)]: the compact serialization
    header.payload.signature. *)
Definition jwt_encode (claims : dict) (key algorithm : string) : string :=
  signing_input claims algorithm ++ "." ++
  base64url_encode (mac algorithm key (signing_input claims algorithm)).

(** The [exp] check of jose, run without leeway:
    [if exp < (now - leeway): raise ExpiredSignatureError], where [now] is
    the current whole second.  A token is expired once its [exp] is
    smaller than the current whole second. *)
Definition exp_valid (claims : dict) (now_s : Z) : bool :=
  match dict_lookup "exp" claims with
  | Some (JNum exp) => negb (Z.ltb exp now_s)
  | _ => true
  end.

(** [jwt.decode(token, key, algorithms=...)] at instant [now].  The token
    is cut at its last dot into the signed part and the signature segment,
    the signed part at its first dot into header and payload segments; the
    header must be a JSON object whose [alg] is one of [algorithms], the
    signature must be the MAC of the signed part, the payload must be a
    JSON object, and its registered claims must be valid.  A failure is a
    [JWTError] (the library wraps its [JWSError], and
    [ExpiredSignatureError] and [JWTClaimsError] are subclasses), except
    for the [TypeError] of a time claim that [int(...)] cannot take. *)
Definition jwt_decode (token key : string) (algorithms : list string) (now : Z)
  : result dict :=
  match rsplit_last token with
  | None => Raise JWTError
  | Some (signed, crypto_segment) =>
      match split_first signed with
      | None => Raise JWTError
      | Some (header_seg, claims_seg) =>
          match base64url_decode header_seg ≫= json_loads,
                base64url_decode claims_seg,
                base64url_decode crypto_segment with
          | Some (JObj header), Some payload, Some signature =>
              match dict_get "alg" header with
              | JStr alg =>
                  if existsb (String.eqb alg) algorithms
                     && String.eqb signature (mac alg key signed)
                  then
                    match json_loads payload with
                    | Some (JObj claims) =>
                        if other_claims_valid claims (timegm now)
                        then
                          if exp_valid claims (timegm now)
                          then Return claims
                          else Raise JWTError
                        else if claims_type_error claims (timegm now)
                        then Raise TypeError
                        else Raise JWTError
                    | _ => Raise JWTError
                    end
                  else Raise JWTError
              | _ => Raise JWTError
              end
          | _, _, _ => Raise JWTError
          end
      end
  end.

(** *** auth.py *)

(** The claim set [to_encode]; [jwt.encode] stores the [exp] instant as
    its whole-second timestamp. *)
Definition to_encode (user : User) (now : Z) : dict :=
  let expires_delta := minutes (jwt_expiration_minutes settings) in
  let expire := now + expires_delta in
  [ ("sub", JStr (id user));
    ("email", opt_json (email user));
    ("name", opt_json (name user));
    ("provider", JStr (provider user));
    ("exp", JNum (timegm expire)) ].

Definition create_jwt_token (user : User) (now : Z) : Token :=
  let encoded_jwt :=
    jwt_encode (to_encode user now)
               (jwt_secret_key settings) (jwt_algorithm settings) in
  mkToken encoded_jwt "bearer" (Some (jwt_expiration_minutes settings * 60)).

(** [try: ... except JWTError: return None] *)
Definition except_JWTError {A : Type} (body : result (option A))
  : result (option A) :=
  match body with
  | Raise JWTError => Return None
  | other => other
  end.

Definition verify_jwt_token (token : string) (now : Z) : result (option User) :=
  except_JWTError (
    let! payload :=
      jwt_decode token (jwt_secret_key settings) [jwt_algorithm settings] now in
    match dict_get "sub" payload with
    | JNull => Return None
    | user_id =>
        let! user :=
          User_new user_id
                   (dict_get "email" payload)
                   (dict_get "name" payload)
                   (dict_get_default "provider" (JStr "unknown") payload)
                   [] in
        Return (Some user)
    end).

Definition not_authenticated : exn := HTTPException 401 "Not authenticated".

(** [get_current_user]; [now_header] and [now_cookie] are the instants of
    the two possible [jwt.decode] calls. *)
Definition get_current_user (request : Request) (now_header now_cookie : Z)
  : result User :=
  let! from_header :=
    match header_Authorization request with
    | Some auth_header =>
        if negb (String.eqb auth_header "")
           && String.prefix "Bearer " auth_header
        then verify_jwt_token (replace_bearer auth_header) now_header
        else Return None
    | None => Return None
    end in
  match from_header with
  | Some user => Return user
  | None =>
      let! from_cookie :=
        match cookie_access_token request with
        | Some token =>
            if negb (String.eqb token "")
            then verify_jwt_token token now_cookie
            else Return None
        | None => Return None
        end in
      match from_cookie with
      | Some user => Return user
      | None => Raise not_authenticated
      end
  end.

(** [auth_status]: [except HTTPException] only. *)
Definition auth_status (request : Request) (now_header now_cookie : Z)
  : result StatusBody :=
  match get_current_user request now_header now_cookie with
  | Return user => Return (mkStatusBody true (Some user))
  | Raise (HTTPException _ _) => Return (mkStatusBody false None)
  | Raise e => Raise e
  end.

(** [login]; [current_time] is the instant read by
    [cleanup_expired_sessions], [created] the one stored with the new
    state, and [state] the value drawn by [secrets.token_urlsafe(32)]. *)
Definition login (current_time created : Z) (state : string) (sessions : store)
  : run LoginBody :=
  let sessions1 := cleanup_expired_sessions current_time sessions in
  let sessions2 := <[state := ("pending", created)]> sessions1 in
  let params :=
    [ ("client_id", oauth2_client_id settings);
      ("redirect_uri", oauth2_redirect_uri settings);
      ("response_type", "code");
      ("state", state);
      ("scope", "openid profile email") ] in
  let auth_url := oauth2_authorization_url settings ++ "?" ++ urlencode params in
  mkRun (Return (mkLoginBody auth_url state
                   "Redirect user to authorization_url to complete login"))
        sessions2 [].

Definition token_request (code : string) : call :=
  Post (oauth2_token_url settings)
       [ ("grant_type", "authorization_code");
         ("code", code);
         ("redirect_uri", oauth2_redirect_uri settings);
         ("client_id", oauth2_client_id settings);
         ("client_secret", oauth2_client_secret settings) ].

Definition user_info_request (oauth_token : OAuth2Token) : call :=
  Get (oauth2_user_info_url settings)
      [ ("Authorization", "Bearer " ++ oauth_access_token oauth_token) ].

Definition send (client : AsyncClient) (c : call) : reply :=
  match c with
  | Post url data => client_post client url data
  | Get url headers => client_get client url headers
  end.

(** The body of the [try] in [auth_callback]: the code-for-token exchange
    and the user-info request, with the requests sent. *)
Definition exchange (client : AsyncClient) (code : string)
  : result json * list call :=
  let c1 := token_request code in
  match checked_json (send client c1) with
  | Raise e => (Raise e, [c1])
  | Return token_data =>
      match token_data with
      | JObj fields =>
          match OAuth2Token_new lax_int fields with
          | Raise e => (Raise e, [c1])
          | Return oauth_token =>
              let c2 := user_info_request oauth_token in
              (checked_json (send client c2), [c1; c2])
          end
      | _ => (Raise TypeError, [c1])
      end
  end.

(** [except httpx.HTTPError as e: raise HTTPException(status_code=500, ...)] *)
Definition except_HTTPError {A : Type} (body : result A) : result A :=
  match body with
  | Raise (HTTPError msg) =>
      Raise (HTTPException 500 ("Failed to authenticate with provider: " ++ msg))
  | other => other
  end.

(** The [User] built from the provider's profile. *)
Definition user_from_profile (user_data : dict) : result User :=
  User_new (py_or (dict_get "id" user_data)
                  (dict_get_default "sub" (JStr "unknown") user_data))
           (dict_get "email" user_data)
           (py_or (dict_get "name" user_data) (dict_get "display_name" user_data))
           (JStr "oauth2")
           user_data.

(** What [auth_callback] does once the profile is fetched. *)
Definition finish_callback (user_data : json) (now : Z) : result CallbackBody :=
  match user_data with
  | JObj fields =>
      let! user := user_from_profile fields in
      let token := create_jwt_token user now in
      let cookie :=
        mkCookie "access_token" (access_token token) true (expires_in token)
                 "lax" true in
      Return (mkCallbackBody "Authentication successful" user token cookie)
  | _ => Raise AttributeError
  end.

(** [auth_callback]; [now] is the instant read by [create_jwt_token]. *)
Definition auth_callback (client : AsyncClient) (code state : string)
    (now : Z) (sessions : store) : run CallbackBody :=
  match sessions !! state with
  | None =>
      mkRun (Raise (HTTPException 400 "Invalid state parameter")) sessions []
  | Some _ =>
      let sessions1 := delete state sessions in
      let '(fetched, sent) := exchange client code in
      mkRun (let! user_data := except_HTTPError fetched in
             finish_callback user_data now)
            sessions1 sent
  end.

(** [get_user_profile], the handler of [/auth/me]: FastAPI runs the
    dependency [get_current_user] and the handler returns its user. *)
Definition get_user_profile (request : Request) (now_header now_cookie : Z)
  : result User :=
  let! current_user := get_current_user request now_header now_cookie in
  Return current_user.

(** [protected_route] of main.py, behind the same dependency. *)
Definition protected_route (request : Request) (now_header now_cookie : Z)
  : result ProtectedBody :=
  let! current_user := get_current_user request now_header now_cookie in
  Return (mkProtectedBody "This is a protected resource" current_user true).

(** *** Provider failures *)

(** The token request or the user-info request fails in transport or
    comes back with a status outside 2xx. *)
Definition request_failed (r : reply) : Prop :=
  match r with
  | TransportError _ => True
  | Response status_code _ => is_success status_code = false
  end.

(** The exchange fails at its first or at its second request. *)
Definition provider_failed (client : AsyncClient) (code : string) : Prop :=
  request_failed (send client (token_request code))
  \/ exists fields oauth_token,
       checked_json (send client (token_request code))
       = Return (JObj fields)
       /\ OAuth2Token_new lax_int fields = Return oauth_token
       /\ request_failed (send client (user_info_request oauth_token)).

(** *** Sequences of requests *)

(** The requests that touch [sessions], with the values each run reads
    from its environment. *)
Inductive event : Type :=
  | Login (current_time created : Z) (state : string)
  | Callback (client : AsyncClient) (code state : string) (now : Z).

Definition step (e : event) (sessions : store) : store :=
  match e with
  | Login current_time created state =>
      sessions_after (login current_time created state sessions)
  | Callback client code state now =>
      sessions_after (auth_callback client code state now sessions)
  end.

Definition run_events (events : list event) (sessions : store) : store :=
  foldl (fun s e => step e s) sessions events.

(** The number of logins among [events]. *)
Fixpoint count_logins (events : list event) : nat :=
  match events with
  | [] => O
  | Login _ _ _ :: rest => S (count_logins rest)
  | Callback _ _ _ _ :: rest => count_logins rest
  end.

(** An event that neither consumes [nonce] nor sweeps an entry created
    at [created]: a login at most ten minutes later, a callback for
    another state. *)
Definition undisturbed (nonce : string) (created : Z) (e : event) : Prop :=
  match e with
  | Login current_time _ state =>
      state <> nonce /\ current_time - created <= 600 * 1000000
  | Callback _ _ state _ => state <> nonce
  end.

(** An event that does not draw [nonce] again. *)
Definition no_relogin (nonce : string) (e : event) : Prop :=
  match e with
  | Login _ _ state => state <> nonce
  | Callback _ _ _ _ => True
  end.

Definition invalid_state : exn := HTTPException 400 "Invalid state parameter".

(** *** The credentials of a request, in the order they are tried *)

(** The token of an [Authorization: Bearer ...] header. *)
Definition bearer_token (request : Request) : option string :=
  match header_Authorization request with
  | Some auth_header =>
      if String.prefix "Bearer " auth_header
      then Some (replace_bearer auth_header)
      else None
  | None => None
  end.

(** The token of a non-empty [access_token] cookie. *)
Definition cookie_token (request : Request) : option string :=
  match cookie_access_token request with
  | Some EmptyString => None
  | other => other
  end.

(** *** What [jwt.decode] accepts *)

(** The signature segment of [token] is the MAC, under the configured key
    and algorithm, of what precedes its last dot. *)
Definition signature_matches (token : string) : Prop :=
  exists signed crypto_segment,
    rsplit_last token = Some (signed, crypto_segment)
    /\ base64url_decode crypto_segment
       = Some (mac (jwt_algorithm settings) (jwt_secret_key settings) signed).

(** The payload segment of [token] decodes to the JSON object [claims]. *)
Definition carries (token : string) (claims : dict) : Prop :=
  exists signed crypto_segment header_seg claims_seg payload,
    rsplit_last token = Some (signed, crypto_segment)
    /\ split_first signed = Some (header_seg, claims_seg)
    /\ base64url_decode claims_seg = Some payload
    /\ json_loads payload = Some (JObj claims).

(** [token] is a compact serialization whose header names the configured
    algorithm, whose signature is the MAC of its first two segments, and
    whose payload is the JSON object [claims], valid at instant [now]. *)
Inductive accepted (token : string) (now : Z) (claims : dict) : Prop :=
  | Accepted (signed crypto_segment header_seg claims_seg payload : string)
      (header : dict) :
      rsplit_last token = Some (signed, crypto_segment) ->
      split_first signed = Some (header_seg, claims_seg) ->
      base64url_decode header_seg ≫= json_loads = Some (JObj header) ->
      dict_get "alg" header = JStr (jwt_algorithm settings) ->
      base64url_decode crypto_segment
      = Some (mac (jwt_algorithm settings) (jwt_secret_key settings) signed) ->
      base64url_decode claims_seg = Some payload ->
      json_loads payload = Some (JObj claims) ->
      (forall exp,
          dict_lookup "exp" claims = Some (JNum exp) -> timegm now <= exp) ->
      other_claims_valid claims (timegm now) = true ->
      accepted token now claims.

End Auth.

(** ** A reference backend

    Small executable stand-ins for the parameters of [Auth], so that the
    handlers run on concrete requests: a hexadecimal segment codec, a tagged
    text format for JSON documents, and a MAC that keeps its message. *)
Module Ref.

(** The digit of a value below 16: [0]-[9] are the codes 48-57, [a]-[f]
    the codes 97-102. *)
Definition nibble_char (n : N) : ascii :=
  ascii_of_N (if N.ltb n 10 then 48 + n else 87 + n)%N.

Definition char_nibble (c : ascii) : option N :=
  let code := N_of_ascii c in
  if N.leb 48 code && N.leb code 57 then Some (code - 48)%N
  else if N.leb 97 code && N.leb code 102 then Some (code - 87)%N
  else None.

Fixpoint hex_encode (s : string) : string :=
  match s with
  | EmptyString => EmptyString
  | String c rest =>
      String (nibble_char (N_of_ascii c / 16))
        (String (nibble_char (N_of_ascii c mod 16)) (hex_encode rest))
  end%N.

Fixpoint hex_decode (s : string) : option string :=
  match s with
  | EmptyString => Some EmptyString
  | String hi (String lo rest) =>
      match char_nibble hi, char_nibble lo, hex_decode rest with
      | Some h, Some l, Some r => Some (String (ascii_of_N (16 * h + l)) r)
      | _, _, _ => None
      end
  | String _ EmptyString => None
  end%N.

(** The text before the first [stop] and the text after it. *)
Fixpoint until (stop : ascii) (s : string) : option (string * string) :=
  match s with
  | EmptyString => None
  | String c rest =>
      if Ascii.eqb c stop then Some (EmptyString, rest)
      else match until stop rest with
           | Some (a, b) => Some (String c a, b)
           | None => None
           end
  end.

Definition dump_Z (n : Z) : string :=
  DecimalString.NilZero.string_of_int (Z.to_int n).

Definition load_Z (s : string) : option Z :=
  match DecimalString.NilZero.int_of_string s with
  | Some d => Some (Z.of_int d)
  | None => None
  end.

Fixpoint dumps (j : json) : string :=
  match j with
  | JNull => "n"
  | JBool true => "t"
  | JBool false => "f"
  | JNum n => "i" ++ dump_Z n ++ ";"
  | JStr s => "s" ++ hex_encode s ++ ";"
  | JArr items =>
      "[" ++ (fix go (l : list json) : string :=
                match l with
                | [] => "]"
                | x :: l' => dumps x ++ go l'
                end) items
  | JObj fields =>
      "{" ++ (fix go (l : list (string * json)) : string :=
                match l with
                | [] => "}"
                | (k, v) :: l' => hex_encode k ++ ";" ++ dumps v ++ go l'
                end) fields
  end.

Fixpoint parse (fuel : nat) (s : string) : option (json * string) :=
  match fuel with
  | O => None
  | S fuel' =>
      match s with
      | String "n" rest => Some (JNull, rest)
      | String "t" rest => Some (JBool true, rest)
      | String "f" rest => Some (JBool false, rest)
      | String "i" rest =>
          match until ";" rest with
          | Some (digits, rest') =>
              match load_Z digits with
              | Some n => Some (JNum n, rest')
              | None => None
              end
          | None => None
          end
      | String "s" rest =>
          match until ";" rest with
          | Some (hex, rest') =>
              match hex_decode hex with
              | Some str => Some (JStr str, rest')
              | None => None
              end
          | None => None
          end
      | String "[" rest =>
          match parse_items fuel' rest with
          | Some (items, rest') => Some (JArr items, rest')
          | None => None
          end
      | String "{" rest =>
          match parse_fields fuel' rest with
          | Some (fields, rest') => Some (JObj fields, rest')
          | None => None
          end
      | _ => None
      end
  end%char
with parse_items (fuel : nat) (s : string) : option (list json * string) :=
  match fuel with
  | O => None
  | S fuel' =>
      match s with
      | String "]" rest => Some ([], rest)
      | _ =>
          match parse fuel' s with
          | Some (x, rest) =>
              match parse_items fuel' rest with
              | Some (l, rest') => Some (x :: l, rest')
              | None => None
              end
          | None => None
          end
      end
  end%char
with parse_fields (fuel : nat) (s : string)
  : option (list (string * json) * string) :=
  match fuel with
  | O => None
  | S fuel' =>
      match s with
      | String "}" rest => Some ([], rest)
      | _ =>
          match until ";" s with
          | Some (hex, rest) =>
              match hex_decode hex, parse fuel' rest with
              | Some k, Some (v, rest') =>
                  match parse_fields fuel' rest' with
                  | Some (l, rest'') => Some ((k, v) :: l, rest'')
                  | None => None
                  end
              | _, _ => None
              end
          | None => None
          end
      end
  end%char.

Definition loads (s : string) : option json :=
  match parse (S (String.length s)) s with
  | Some (j, EmptyString) => Some j
  | _ => None
  end.

(** The MAC keeps the algorithm, the key and the message apart. *)
Definition mac (algorithm key message : string) : string :=
  hex_encode algorithm ++ ":" ++ hex_encode key ++ ":" ++ message.

(** A plain numeral: an optional sign and one digit or more. *)
Definition numeral (s : string) : option Z :=
  match s with
  | String "+" (String "+" _) | String "+" (String "-" _) => None
  | String "+" digits => load_Z digits
  | _ => load_Z s
  end%char.

(** [int(v)] of a time claim: an integer, a boolean, or a string that is a
    plain numeral; another string is the [ValueError] that the library
    turns into a [JWTClaimsError], and null, an array or an object is a
    [TypeError].  (Python's [int] also reads a numeral between blanks or
    with underscores between its digits; no token below has such a
    claim.) *)
Definition int_of_claim (v : json) : result Z :=
  match v with
  | JNum n => Return n
  | JBool b => Return (if b then 1 else 0)
  | JStr s =>
      match numeral s with
      | Some n => Return n
      | None => Raise JWTError
      end
  | JNull | JArr _ | JObj _ => Raise TypeError
  end.

Definition require (ok : bool) : result unit :=
  if ok then Return tt else Raise JWTError.

(** [None] or a string. *)
Definition absent_or_string (o : option json) : bool :=
  match o with
  | None | Some (JStr _) => true
  | Some _ => false
  end.

Definition absent (o : option json) : bool :=
  match o with
  | None => true
  | Some _ => false
  end.

(** The checks left open in [Auth], in the library's order and as
    [jwt.decode] is called here (no audience, issuer, subject or access
    token given): [iat] converts; [nbf] converts and is not in the future;
    an [exp] that is no integer converts and is not in the past; no [aud]
    and no [at_hash]; [sub] and [jti] are strings. *)
Definition check_claims (claims : dict) (now_s : Z) : result unit :=
  let! iat_ok :=
    match dict_lookup "iat" claims with
    | None => Return tt
    | Some v => let! iat := int_of_claim v in Return tt
    end in
  let! nbf_ok :=
    match dict_lookup "nbf" claims with
    | None => Return tt
    | Some v => let! nbf := int_of_claim v in require (negb (Z.ltb now_s nbf))
    end in
  let! exp_ok :=
    match dict_lookup "exp" claims with
    | None | Some (JNum _) => Return tt
    | Some v => let! exp := int_of_claim v in require (negb (Z.ltb exp now_s))
    end in
  let! aud_ok := require (absent (dict_lookup "aud" claims)) in
  let! sub_ok := require (absent_or_string (dict_lookup "sub" claims)) in
  let! jti_ok := require (absent_or_string (dict_lookup "jti" claims)) in
  require (absent (dict_lookup "at_hash" claims)).

Definition other_claims_valid (claims : dict) (now_s : Z) : bool :=
  match check_claims claims now_s with
  | Return _ => true
  | Raise _ => false
  end.

Definition claims_type_error (claims : dict) (now_s : Z) : bool :=
  match check_claims claims now_s with
  | Raise TypeError => true
  | _ => false
  end.

(** A lax conversion to [int] for the runs below: a boolean, or a string
    that is a plain numeral.  (What else pydantic converts, such as a
    numeral between blanks, depends on its release; no response below has
    such a field.) *)
Definition lax_int (v : json) : option Z :=
  match v with
  | JBool b => Some (if b then 1 else 0)
  | JStr s => numeral s
  | _ => None
  end.

Definition urlencode (params : list (string * string)) : string :=
  String.concat "&" (map (fun kv => hex_encode kv.1 ++ "=" ++ hex_encode kv.2) params).

Definition settings : Settings :=
  mkSettings "client" "client-secret"
             "https://idp.example/authorize" "https://idp.example/token"
             "https://idp.example/userinfo" "http://localhost:8000/auth/callback"
             "default-secret-key-change-in-production" "HS256" 30.

Definition create_jwt_token :=
  create_jwt_token mac hex_encode dumps settings.
Definition verify_jwt_token :=
  verify_jwt_token mac hex_decode loads other_claims_valid claims_type_error settings.
Definition get_current_user :=
  get_current_user mac hex_decode loads other_claims_valid claims_type_error settings.
Definition auth_status :=
  auth_status mac hex_decode loads other_claims_valid claims_type_error settings.
Definition login := login urlencode settings.
Definition auth_callback := auth_callback mac hex_encode dumps settings lax_int.

(** A provider that grants every code and knows one user. *)
Definition good_client : AsyncClient :=
  mkClient
    (fun _ _ =>
       Response 200 (Some (JObj [("access_token", JStr "tok");
                                 ("token_type", JStr "bearer")])))
    (fun _ _ =>
       Response 200 (Some (JObj [("id", JStr "u1");
                                 ("email", JStr "a@b.com")]))).

(** A provider that cannot be reached. *)
Definition down_client : AsyncClient :=
  mkClient (fun _ _ => TransportError "connection refused")
           (fun _ _ => TransportError "connection refused").

(** A provider whose profiles carry neither [id] nor [sub]. *)
Definition anonymous_client : AsyncClient :=
  mkClient
    (fun _ _ =>
       Response 200 (Some (JObj [("access_token", JStr "tok");
                                 ("token_type", JStr "bearer")])))
    (fun _ _ => Response 200 (Some (JObj [("email", JStr "a@b.com")]))).

(** One pending login, started at instant 0. *)
Definition one_pending : store := {[ "abc123" := ("pending", 0) ]}.

(** A user as the callback builds it from the profile of [good_client]. *)
Definition alice : User :=
  mkUser "u1" (Some "a@b.com") None "oauth2"
         [("id", JStr "u1"); ("email", JStr "a@b.com")].

(** A token signed with the configured key and algorithm whose claims
    bind [provider] to null:
    [jwt.encode({"sub": "u1", "provider": None}, key, algorithm)]. *)
Definition null_provider_token : string :=
  jwt_encode mac hex_encode dumps
             [("sub", JStr "u1"); ("provider", JNull)]
             (jwt_secret_key settings) (jwt_algorithm settings).

(** A token signed with the configured key whose claims have no
    [provider]: [jwt.encode({"sub": "u1"}, key, algorithm)]. *)
Definition legacy_token : string :=
  jwt_encode mac hex_encode dumps [("sub", JStr "u1")]
             (jwt_secret_key settings) (jwt_algorithm settings).

(** A provider whose token endpoint answers 200 with a body that is not
    JSON. *)
Definition html_client : AsyncClient :=
  mkClient (fun _ _ => Response 200 None)
           (fun _ _ => Response 200 (Some (JObj [("id", JStr "u1")]))).

(** A provider whose profiles carry a numeric [id], a [sub] and a
    [display_name]. *)
Definition numeric_client : AsyncClient :=
  mkClient
    (fun _ _ =>
       Response 200 (Some (JObj [("access_token", JStr "tok");
                                 ("token_type", JStr "bearer")])))
    (fun _ _ =>
       Response 200 (Some (JObj [("id", JNum 42); ("sub", JStr "s42");
                                 ("display_name", JStr "Forty Two")]))).

Definition get_user_profile :=
  get_user_profile mac hex_decode loads other_claims_valid claims_type_error settings.
Definition protected_route :=
  protected_route mac hex_decode loads other_claims_valid claims_type_error settings.

End Ref.

(** * Properties *)

(** The handlers by their global names, for unfolding inside the sections
    below, which abbreviate them at fixed parameters. *)
Ltac unfold_auth_callback := unfold auth_callback.
Ltac unfold_auth_status := unfold auth_status.
Ltac unfold_finish_callback := unfold finish_callback.
Ltac unfold_get_current_user := unfold get_current_user.
Ltac unfold_header_segment := unfold header_segment.
Ltac unfold_jwt_decode := unfold jwt_decode.
Ltac unfold_verify_jwt_token := unfold verify_jwt_token.


(** ** String helpers on examples *)

Example replace_bearer_prefix : replace_bearer "Bearer abc.def" = "abc.def".
Proof. reflexivity. Qed.

Example replace_bearer_inner : replace_bearer "Bearer a Bearer b" = "a b".
Proof. reflexivity. Qed.

Example rsplit_last_three : rsplit_last "h.p.s" = Some ("h.p", "s").
Proof. reflexivity. Qed.

Example split_first_two : split_first "h.p" = Some ("h", "p").
Proof. reflexivity. Qed.

(** ** The state store *)

Lemma elem_of_expired_states (current_time : Z) (sessions : store) (k : string) :
  k ∈ expired_states current_time sessions <->
  exists entry, sessions !! k = Some entry /\ expired current_time entry = true.
Proof.
  unfold expired_states. rewrite list_elem_of_fmap. split.
  - intros [[k' entry] [-> Hin]]. apply list_elem_of_filter in Hin as [Hexp Hin].
    apply elem_of_map_to_list in Hin. exists entry. split; assumption.
  - intros [entry [Hk Hexp]]. exists (k, entry). split; [reflexivity|].
    apply list_elem_of_filter. split; [exact Hexp|].
    apply elem_of_map_to_list. exact Hk.
Qed.

(** After the sweep an entry is there exactly when it was there and is not
    older than ten minutes. *)
Lemma cleanup_lookup (current_time : Z) (sessions : store) (k : string) :
  cleanup_expired_sessions current_time sessions !! k =
  match sessions !! k with
  | Some entry => if expired current_time entry then None else Some entry
  | None => None
  end.
Proof.
  unfold cleanup_expired_sessions.
  destruct (sessions !! k) as [entry|] eqn:Hk.
  - destruct (expired current_time entry) eqn:Hexp.
    + apply lookup_foldr_delete. apply elem_of_expired_states. eauto.
    + rewrite lookup_foldr_delete_not_elem_of; [exact Hk|].
      intros Hin. apply elem_of_expired_states in Hin as [entry' [Hk' Hexp']].
      congruence.
  - rewrite lookup_foldr_delete_not_elem_of; [exact Hk|].
    intros Hin. apply elem_of_expired_states in Hin as [entry' [Hk' _]].
    congruence.
Qed.

Lemma expired_spec (current_time created : Z) (status : string) :
  expired current_time (status, created) = true <->
  600 * 1000000 < current_time - created.
Proof. unfold expired. simpl. apply Z.ltb_lt. Qed.

(** ** Model validation *)

(** A model is built or its validation fails; nothing else is raised. *)
Lemma User_new_cases (v_id v_email v_name v_provider : json) (data : dict) :
  (exists user, User_new v_id v_email v_name v_provider data = Return user)
  \/ User_new v_id v_email v_name v_provider data = Raise ValidationError.
Proof.
  unfold User_new.
  destruct v_id; simpl; auto.
  destruct v_email; simpl; auto;
    destruct v_name; simpl; auto;
    destruct v_provider; simpl; eauto.
Qed.

(** ** The callback and the state store *)

Section Callback.

Variable mac : string -> string -> string -> string.
Variable base64url_encode : string -> string.
Variable json_dumps : json -> string.
Variable urlencode : list (string * string) -> string.
Variable settings : Settings.
Variable lax_int : json -> option Z.

Local Abbreviation auth_callback :=
  (auth_callback mac base64url_encode json_dumps settings lax_int).
Local Abbreviation finish_callback :=
  (finish_callback mac base64url_encode json_dumps settings).
Local Abbreviation login := (login urlencode settings).
Local Abbreviation step := (step mac base64url_encode json_dumps urlencode settings lax_int).
Local Abbreviation run_events :=
  (run_events mac base64url_encode json_dumps urlencode settings lax_int).

(** The token request is always the first request of the exchange. *)
Lemma exchange_sends_token_request (client : AsyncClient) (code : string) :
  exists rest,
    (exchange settings lax_int client code).2 = token_request settings code :: rest.
Proof.
  unfold exchange.
  destruct (checked_json _) as [[| | | | |fields]|e]; simpl; eauto.
  destruct (OAuth2Token_new lax_int fields); simpl; eauto.
Qed.

Lemma checked_json_not_HTTPException (r : reply) (status : Z) (detail : string) :
  checked_json r <> Raise (HTTPException status detail).
Proof.
  destruct r as [msg|status_code [j|]]; simpl; try discriminate;
    destruct (is_success status_code); discriminate.
Qed.

Lemma OAuth2Token_new_cases (fields : dict) :
  (exists oauth_token, OAuth2Token_new lax_int fields = Return oauth_token)
  \/ OAuth2Token_new lax_int fields = Raise ValidationError.
Proof.
  unfold OAuth2Token_new.
  destruct (dict_lookup "access_token" fields) as [a|]; [|auto].
  destruct (dict_lookup "token_type" fields) as [t|]; [|auto].
  destruct a; simpl; auto.
  destruct t; simpl; auto.
  destruct (validate_opt_int lax_int (dict_get "expires_in" fields)) as [e|err] eqn:He.
  - simpl.
    destruct (dict_get "refresh_token" fields); simpl; auto;
      destruct (dict_get "scope" fields); simpl; eauto.
  - simpl. right. f_equal. unfold validate_opt_int in He.
    destruct (dict_get "expires_in" fields) as [|b|n|str|l|l]; try congruence;
      destruct (lax_int _); congruence.
Qed.

(** The exchange itself raises no [HTTPException]. *)
Lemma exchange_not_HTTPException (client : AsyncClient) (code : string)
    (status : Z) (detail : string) :
  (exchange settings lax_int client code).1 <> Raise (HTTPException status detail).
Proof.
  unfold exchange.
  destruct (checked_json (send client (token_request settings code)))
    as [token_data|e] eqn:Hjson; simpl.
  - destruct token_data as [| | | | |fields]; simpl; try discriminate.
    destruct (OAuth2Token_new_cases fields) as [[oauth_token ->]| ->]; simpl.
    + apply checked_json_not_HTTPException.
    + discriminate.
  - intros [= ->]. exact (checked_json_not_HTTPException _ _ _ Hjson).
Qed.

(** A stored state is deleted before the exchange starts, whatever the
    exchange then yields. *)
Lemma callback_known_state (client : AsyncClient) (code state : string)
    (now : Z) (sessions : store) (entry : string * Z) :
  sessions !! state = Some entry ->
  auth_callback client code state now sessions =
  mkRun (let! user_data := except_HTTPError (exchange settings lax_int client code).1 in
         finish_callback user_data now)
        (delete state sessions)
        (exchange settings lax_int client code).2.
Proof.
  intros Hstate. unfold_auth_callback. rewrite Hstate.
  destruct (exchange settings lax_int client code) as [fetched sent]. reflexivity.
Qed.

Lemma finish_callback_not_HTTPException (user_data : json) (now : Z)
    (status : Z) (detail : string) :
  finish_callback user_data now <> Raise (HTTPException status detail).
Proof.
  unfold_finish_callback.
  destruct user_data as [| | | | |fields]; try discriminate.
  destruct (User_new_cases (py_or (dict_get "id" fields)
              (dict_get_default "sub" (JStr "unknown") fields))
              (dict_get "email" fields)
              (py_or (dict_get "name" fields) (dict_get "display_name" fields))
              (JStr "oauth2") fields) as [[user Hu]|Hu];
    unfold user_from_profile; rewrite Hu; discriminate.
Qed.

(** The run of a callback whose state is not stored. *)
Lemma callback_refused (client : AsyncClient) (code state : string)
    (now : Z) (sessions : store) :
  sessions !! state = None ->
  auth_callback client code state now sessions
  = mkRun (Raise invalid_state) sessions [].
Proof.
  intros Hstate. unfold_auth_callback. rewrite Hstate. reflexivity.
Qed.

(** C6. A callback whose [state] is not a stored nonce raises
    [HTTPException(400, "Invalid state parameter")], sends no request to
    the provider and leaves [sessions] as it was. *)
Theorem callback_unknown_state (client : AsyncClient) (code state : string)
    (now : Z) (sessions : store) :
  sessions !! state = None ->
  let r := auth_callback client code state now sessions in
  outcome r = Raise (HTTPException 400 "Invalid state parameter")
  /\ requests_sent r = []
  /\ sessions_after r = sessions.
Proof.
  intros Hstate r. subst r. rewrite (callback_refused _ _ _ _ _ Hstate).
  repeat split.
Qed.

Lemma request_failed_HTTPError (r : reply) :
  request_failed r -> exists msg, checked_json r = Raise (HTTPError msg).
Proof.
  destruct r as [msg|status_code body]; simpl.
  - eauto.
  - intros ->. eauto.
Qed.

Lemma provider_failed_HTTPError (client : AsyncClient) (code : string) :
  provider_failed settings lax_int client code ->
  exists msg, (exchange settings lax_int client code).1 = Raise (HTTPError msg).
Proof.
  unfold exchange, provider_failed. intros [Hfail|(fields & oauth_token & Hjson & Htok & Hfail)].
  - apply request_failed_HTTPError in Hfail as [msg ->]. simpl. eauto.
  - rewrite Hjson, Htok. simpl. apply request_failed_HTTPError. exact Hfail.
Qed.

(** C7. When the token request or the user-info request fails after the
    nonce was consumed, the callback raises [HTTPException(500, ...)], so
    nothing is returned and no token is issued, and the nonce stays
    deleted. *)
Theorem callback_provider_failure (client : AsyncClient) (code state : string)
    (now : Z) (sessions : store) (entry : string * Z) :
  sessions !! state = Some entry ->
  provider_failed settings lax_int client code ->
  let r := auth_callback client code state now sessions in
  (exists msg,
      outcome r
      = Raise (HTTPException 500 ("Failed to authenticate with provider: " ++ msg)))
  /\ (forall body, outcome r <> Return body)
  /\ sessions_after r = delete state sessions
  /\ sessions_after r !! state = None.
Proof.
  intros Hstate Hfail r. subst r.
  rewrite (callback_known_state _ _ _ _ _ _ Hstate). simpl.
  apply provider_failed_HTTPError in Hfail as [msg ->]. simpl.
  split; [eauto|]. split; [discriminate|]. split; [reflexivity|].
  apply lookup_delete_eq.
Qed.

(** *** Single use of a nonce *)

Lemma callback_sessions_after (client : AsyncClient) (code state : string)
    (now : Z) (sessions : store) :
  sessions_after (auth_callback client code state now sessions)
  = delete state sessions.
Proof.
  destruct (sessions !! state) as [entry|] eqn:Hstate.
  - rewrite (callback_known_state _ _ _ _ _ _ Hstate). reflexivity.
  - rewrite (callback_refused _ _ _ _ _ Hstate). simpl.
    symmetry. apply delete_id. exact Hstate.
Qed.

Lemma step_keeps_pending (nonce : string) (created : Z) (e : event)
    (sessions : store) (status : string) :
  undisturbed nonce created e ->
  sessions !! nonce = Some (status, created) ->
  step e sessions !! nonce = Some (status, created).
Proof.
  intros He Hnonce. destruct e as [current_time created' state|client code state now];
    simpl in *.
  - destruct He as [Hne Hfresh].
    rewrite lookup_insert_ne by exact Hne.
    rewrite cleanup_lookup, Hnonce.
    destruct (expired current_time (status, created)) eqn:Hexp; [|reflexivity].
    apply expired_spec in Hexp. lia.
  - rewrite callback_sessions_after, lookup_delete_ne by exact He. exact Hnonce.
Qed.

Lemma step_keeps_absent (nonce : string) (e : event) (sessions : store) :
  no_relogin nonce e ->
  sessions !! nonce = None ->
  step e sessions !! nonce = None.
Proof.
  intros He Hnonce. destruct e as [current_time created' state|client code state now];
    simpl in *.
  - rewrite lookup_insert_ne by exact He.
    rewrite cleanup_lookup, Hnonce. reflexivity.
  - rewrite callback_sessions_after. apply lookup_delete_None. auto.
Qed.

Lemma run_events_keeps_pending (nonce : string) (created : Z)
    (events : list event) (status : string) :
  Forall (undisturbed nonce created) events ->
  forall sessions : store,
    sessions !! nonce = Some (status, created) ->
    run_events events sessions !! nonce = Some (status, created).
Proof.
  induction 1 as [|e events He _ IH]; intros sessions Hnonce; simpl.
  - exact Hnonce.
  - apply IH. apply step_keeps_pending; assumption.
Qed.

Lemma run_events_keeps_absent (nonce : string) (events : list event) :
  Forall (no_relogin nonce) events ->
  forall sessions : store,
    sessions !! nonce = None ->
    run_events events sessions !! nonce = None.
Proof.
  induction 1 as [|e events He _ IH]; intros sessions Hnonce; simpl.
  - exact Hnonce.
  - apply IH. apply step_keeps_absent; assumption.
Qed.

Lemma callback_outcome_known_state (client : AsyncClient) (code state : string)
    (now : Z) (sessions : store) (entry : string * Z) :
  sessions !! state = Some entry ->
  outcome (auth_callback client code state now sessions) <> Raise invalid_state.
Proof.
  intros Hstate. rewrite (callback_known_state _ _ _ _ _ _ Hstate). simpl.
  unfold invalid_state.
  destruct (exchange settings lax_int client code).1 as [user_data|e] eqn:Hx; simpl.
  - apply finish_callback_not_HTTPException.
  - destruct e; simpl; try discriminate.
    exfalso. exact (exchange_not_HTTPException _ _ _ _ Hx).
Qed.

(** C2. A nonce stored by [login] passes the state check of the first
    callback that presents it within the ten-minute window, which deletes
    it and starts the exchange; every later callback with the same nonce
    is refused with 400, sends nothing and changes nothing. *)
Theorem nonce_single_use (sessions : store) (current_time created : Z)
    (nonce : string) (before after : list event)
    (client client' : AsyncClient) (code code' : string) (now now' : Z) :
  Forall (undisturbed nonce created) before ->
  Forall (no_relogin nonce) after ->
  let started := login current_time created nonce sessions in
  let first :=
    auth_callback client code nonce now
      (run_events before (sessions_after started)) in
  let later := run_events after (sessions_after first) in
  let second := auth_callback client' code' nonce now' later in
  (exists body, outcome started = Return body /\ login_state body = nonce)
  /\ outcome first <> Raise invalid_state
  /\ (exists rest, requests_sent first = token_request settings code :: rest)
  /\ sessions_after first !! nonce = None
  /\ second = mkRun (Raise invalid_state) later [].
Proof.
  intros Hbefore Hafter started first later second.
  assert (Hstored : run_events before (sessions_after started) !! nonce
                    = Some ("pending", created)).
  { apply run_events_keeps_pending; [exact Hbefore|].
    subst started. simpl. apply lookup_insert_eq. }
  assert (Hgone : sessions_after first !! nonce = None).
  { subst first. rewrite callback_sessions_after. apply lookup_delete_eq. }
  split; [subst started; simpl; eauto|].
  split; [exact (callback_outcome_known_state _ _ _ _ _ _ Hstored)|].
  split.
  { subst first. rewrite (callback_known_state _ _ _ _ _ _ Hstored). simpl.
    apply exchange_sends_token_request. }
  split; [exact Hgone|].
  subst second. apply callback_refused.
  subst later. apply run_events_keeps_absent; assumption.
Qed.

End Callback.

(** C6 at a concrete callback: no login has happened, the state is
    unknown. *)
Lemma callback_unknown_state_witness :
  let r := Ref.auth_callback Ref.good_client "goodcode" "unknown" 0 ∅ in
  (∅ : store) !! "unknown" = None
  /\ outcome r = Raise (HTTPException 400 "Invalid state parameter")
  /\ requests_sent r = []
  /\ sessions_after r = ∅.
Proof.
  split; [reflexivity|].
  apply (callback_unknown_state Ref.mac Ref.hex_encode Ref.dumps Ref.settings Ref.lax_int).
  reflexivity.
Defined.

(** C7 at a concrete callback: the provider is unreachable. *)
Lemma callback_provider_failure_witness :
  Ref.one_pending !! "abc123" = Some ("pending", 0)
  /\ provider_failed Ref.settings Ref.lax_int Ref.down_client "goodcode"
  /\ sessions_after
       (Ref.auth_callback Ref.down_client "goodcode" "abc123" 1000000
          Ref.one_pending) !! "abc123" = None.
Proof.
  assert (H1 : Ref.one_pending !! "abc123" = Some ("pending", 0))
    by (vm_compute; reflexivity).
  assert (H2 : provider_failed Ref.settings Ref.lax_int Ref.down_client "goodcode")
    by (left; simpl; exact I).
  split; [exact H1|]. split; [exact H2|].
  exact (proj2 (proj2 (proj2
    (callback_provider_failure Ref.mac Ref.hex_encode Ref.dumps Ref.settings Ref.lax_int
       Ref.down_client "goodcode" "abc123" 1000000 Ref.one_pending
       ("pending", 0) H1 H2)))).
Defined.

(** C2 at a concrete run: a login, the callback, and a replay after
    another login. *)
Lemma nonce_single_use_witness :
  let first :=
    Ref.auth_callback Ref.good_client "goodcode" "abc123" 2000000
      (sessions_after (Ref.login 1000000 1000000 "abc123" ∅)) in
  let later :=
    sessions_after (Ref.login 2500000 2500000 "zzz" (sessions_after first)) in
  sessions_after first !! "abc123" = None
  /\ Ref.auth_callback Ref.good_client "goodcode" "abc123" 3000000 later
     = mkRun (Raise invalid_state) later [].
Proof.
  intros first later.
  destruct (nonce_single_use Ref.mac Ref.hex_encode Ref.dumps Ref.urlencode
    Ref.settings Ref.lax_int ∅ 1000000 1000000 "abc123" [] [Login 2500000 2500000 "zzz"]
    Ref.good_client Ref.good_client "goodcode" "goodcode" 2000000 3000000)
    as (_ & _ & _ & Hgone & Hreplay).
  - constructor.
  - constructor; [simpl; discriminate|constructor].
  - split; [exact Hgone|exact Hreplay].
Defined.

(** C1. The state check of [auth_callback] does not look at the age of an
    entry: a state stored at instant 0 and presented 601 seconds later,
    with no login in between to sweep it, passes the check, is deleted,
    and the callback completes with a token. *)
Theorem callback_accepts_expired_state :
  let now := 601 * 1000000 in
  let r := Ref.auth_callback Ref.good_client "goodcode" "abc123" now Ref.one_pending in
  Ref.one_pending !! "abc123" = Some ("pending", 0)
  /\ expired now ("pending", 0) = true
  /\ requests_sent r <> []
  /\ sessions_after r !! "abc123" = None
  /\ exists body,
       outcome r = Return body
       /\ id (cb_user body) = "u1"
       /\ cb_token body = Ref.create_jwt_token (cb_user body) now.
Proof.
  intros now r.
  assert (Hstored : Ref.one_pending !! "abc123" = Some ("pending", 0))
    by (vm_compute; reflexivity).
  split; [exact Hstored|]. split; [reflexivity|].
  subst r. unfold Ref.auth_callback.
  rewrite (callback_known_state _ _ _ _ _ _ _ _ _ _ _ Hstored).
  split; [discriminate|]. split; [apply lookup_delete_eq|].
  eexists. split; [reflexivity|]. split; reflexivity.
Qed.

(** ** Strings: dots and altered bytes *)

Lemma rsplit_last_dotless (s : string) :
  dotless s = true -> rsplit_last s = None.
Proof.
  induction s as [|c s IH]; simpl; [reflexivity|].
  intros H. apply andb_prop in H as [Hc Hs].
  rewrite (IH Hs). destruct (Ascii.eqb c dot); [discriminate|reflexivity].
Qed.

(** The last dot of [x.s] is the one written when [s] has none. *)
Lemma rsplit_last_app (x s : string) :
  dotless s = true -> rsplit_last (x ++ String dot s) = Some (x, s).
Proof.
  intros Hs. induction x as [|c x IH]; simpl.
  - rewrite (rsplit_last_dotless s Hs). reflexivity.
  - rewrite IH. reflexivity.
Qed.

(** The first dot of [h.r] is the one written when [h] has none. *)
Lemma split_first_app (h r : string) :
  dotless h = true -> split_first (h ++ String dot r) = Some (h, r).
Proof.
  induction h as [|c h IH]; simpl; [reflexivity|].
  intros H. apply andb_prop in H as [Hc Hh].
  destruct (Ascii.eqb c dot); [discriminate|]. rewrite (IH Hh). reflexivity.
Qed.

Lemma append_inv_head (a b b' : string) : a ++ b = a ++ b' -> b = b'.
Proof.
  induction a as [|c a IH]; simpl; [auto|]. intros [= H]. auto.
Qed.

(** A string that starts with [Bearer ] is not empty. *)
Lemma nonempty_and_Bearer (h : string) :
  negb (String.eqb h "") && String.prefix "Bearer " h = String.prefix "Bearer " h.
Proof. destruct h; reflexivity. Qed.

Lemma length_append (a b : string) :
  String.length (a ++ b) = (String.length a + String.length b)%nat.
Proof. induction a as [|c a IH]; simpl; [reflexivity|]. rewrite IH. reflexivity. Qed.

Lemma alter_byte_app_l (i : nat) (c : ascii) (a b : string) :
  (i < String.length a)%nat -> alter_byte i c (a ++ b) = alter_byte i c a ++ b.
Proof.
  revert i. induction a as [|x a IH]; simpl; intros i Hi; [lia|].
  destruct i as [|i]; [reflexivity|]. simpl. rewrite IH by lia. reflexivity.
Qed.

Lemma alter_byte_app_r (i : nat) (c : ascii) (a b : string) :
  alter_byte (String.length a + i) c (a ++ b) = a ++ alter_byte i c b.
Proof.
  induction a as [|x a IH]; simpl; [reflexivity|]. rewrite IH. reflexivity.
Qed.

Lemma get_app_l (i : nat) (a b : string) :
  (i < String.length a)%nat -> String.get i (a ++ b) = String.get i a.
Proof.
  revert i. induction a as [|x a IH]; simpl; intros i Hi; [lia|].
  destruct i as [|i]; [reflexivity|]. apply IH. lia.
Qed.

Lemma get_app_r (i : nat) (a b : string) :
  String.get (String.length a + i) (a ++ b) = String.get i b.
Proof.
  induction a as [|x a IH]; simpl; [reflexivity|]. exact IH.
Qed.

(** Writing another byte at a position of [s] gives another string. *)
Lemma alter_byte_neq (i : nat) (c : ascii) (s : string) :
  (i < String.length s)%nat -> String.get i s <> Some c -> alter_byte i c s <> s.
Proof.
  revert i. induction s as [|x s IH]; simpl; intros i Hi Hget; [lia|].
  destruct i as [|i].
  - intros [= ->]. apply Hget. reflexivity.
  - intros [= H]. apply (IH i); [lia|exact Hget|exact H].
Qed.

(** ** Session tokens *)

Section Tokens.

Variable mac : string -> string -> string -> string.
Variable base64url_encode : string -> string.
Variable base64url_decode : string -> option string.
Variable json_dumps : json -> string.
Variable json_loads : string -> option json.
Variable other_claims_valid : dict -> Z -> bool.
Variable claims_type_error : dict -> Z -> bool.
Variable settings : Settings.

Local Abbreviation jwt_encode := (jwt_encode mac base64url_encode json_dumps).
Local Abbreviation jwt_decode :=
  (jwt_decode mac base64url_decode json_loads other_claims_valid
     claims_type_error).
Local Abbreviation signing_input := (signing_input base64url_encode json_dumps).
Local Abbreviation header_segment := (header_segment base64url_encode json_dumps).
Local Abbreviation claims_segment := (claims_segment base64url_encode json_dumps).
Local Abbreviation create_jwt_token :=
  (create_jwt_token mac base64url_encode json_dumps settings).
Local Abbreviation verify_jwt_token :=
  (verify_jwt_token mac base64url_decode json_loads other_claims_valid
     claims_type_error settings).
Local Abbreviation get_current_user :=
  (get_current_user mac base64url_decode json_loads other_claims_valid
     claims_type_error settings).
Local Abbreviation auth_status :=
  (auth_status mac base64url_decode json_loads other_claims_valid
     claims_type_error settings).
Local Abbreviation accepted :=
  (accepted mac base64url_decode json_loads other_claims_valid settings).
Local Abbreviation carries := (carries base64url_decode json_loads).
Local Abbreviation signature_matches :=
  (signature_matches mac base64url_decode settings).
Local Abbreviation key := (jwt_secret_key settings).
Local Abbreviation alg := (jwt_algorithm settings).

(** *** [jwt.decode] *)

Lemma exp_valid_spec (claims : dict) (now_s : Z) :
  exp_valid claims now_s = true <->
  forall exp, dict_lookup "exp" claims = Some (JNum exp) -> now_s <= exp.
Proof.
  unfold exp_valid. split.
  - intros H exp Hexp. rewrite Hexp in H.
    apply negb_true_iff, Z.ltb_ge in H. exact H.
  - intros H. destruct (dict_lookup "exp" claims) as [[| |exp| | |]|]; try reflexivity.
    apply negb_true_iff, Z.ltb_ge. apply H. reflexivity.
Qed.

(** What [jwt.decode] does with a token, stage by stage. *)
Lemma decode_stages (token : string) (now : Z) :
  jwt_decode token key [alg] now = Raise JWTError
  \/ exists signed crypto_segment header_seg claims_seg payload header claims,
       rsplit_last token = Some (signed, crypto_segment)
       /\ split_first signed = Some (header_seg, claims_seg)
       /\ base64url_decode header_seg ≫= json_loads = Some (JObj header)
       /\ dict_get "alg" header = JStr alg
       /\ base64url_decode crypto_segment = Some (mac alg key signed)
       /\ base64url_decode claims_seg = Some payload
       /\ json_loads payload = Some (JObj claims)
       /\ jwt_decode token key [alg] now =
          if other_claims_valid claims (timegm now)
          then if exp_valid claims (timegm now) then Return claims
               else Raise JWTError
          else if claims_type_error claims (timegm now) then Raise TypeError
               else Raise JWTError.
Proof.
  unfold_jwt_decode.
  destruct (rsplit_last token) as [[signed crypto_segment]|] eqn:Hr; [|auto].
  destruct (split_first signed) as [[header_seg claims_seg]|] eqn:Hs; [|auto].
  destruct (base64url_decode header_seg ≫= json_loads)
    as [[| | | | |header]|] eqn:Hh; auto.
  destruct (base64url_decode claims_seg) as [payload|] eqn:Hp; [|auto].
  destruct (base64url_decode crypto_segment) as [signature|] eqn:Hc; [|auto].
  destruct (dict_get "alg" header) as [| | |a| |] eqn:Ha; auto.
  destruct (existsb (String.eqb a) [alg] && String.eqb signature (mac a key signed))
    eqn:Hsig; [|auto].
  destruct (json_loads payload) as [[| | | | |claims]|] eqn:Hj; auto.
  apply andb_prop in Hsig as [Halg Hsig].
  simpl in Halg. rewrite orb_false_r in Halg.
  apply String.eqb_eq in Halg, Hsig. subst a signature.
  right. exists signed, crypto_segment, header_seg, claims_seg, payload, header, claims.
  repeat split; auto.
Qed.

(** [jwt.decode] returns the claims of exactly the tokens described by
    [accepted]. *)
Lemma decode_accepted (token : string) (now : Z) (claims : dict) :
  jwt_decode token key [alg] now = Return claims <-> accepted token now claims.
Proof.
  split.
  - destruct (decode_stages token now)
      as [->|(signed & crypto_segment & header_seg & claims_seg & payload
              & header & claims' & Hr & Hs & Hh & Ha & Hc & Hp & Hj & ->)];
      [discriminate|].
    destruct (other_claims_valid claims' (timegm now)) eqn:Hother.
    + destruct (exp_valid claims' (timegm now)) eqn:Hexp; [|discriminate].
      intros [= ->]. econstructor; eauto. apply exp_valid_spec. exact Hexp.
    + destruct (claims_type_error claims' (timegm now)); discriminate.
  - intros [signed crypto_segment header_seg claims_seg payload header
              Hr Hs Hh Ha Hc Hp Hj Hexp Hother].
    unfold_jwt_decode.
    rewrite Hr, Hs, Hh, Hp, Hc, Ha. simpl.
    rewrite !String.eqb_refl. simpl. rewrite Hj.
    apply exp_valid_spec in Hexp. rewrite Hexp, Hother. reflexivity.
Qed.

(** A token is accepted with one claim set only. *)
Lemma accepted_unique (token : string) (now : Z) (claims claims' : dict) :
  accepted token now claims -> accepted token now claims' -> claims = claims'.
Proof.
  intros H H'. apply decode_accepted in H, H'. congruence.
Qed.



(** [jwt.decode] raises a [JWTError], or the [TypeError] of a claim check:
    the latter only on a token whose signature matches and whose payload
    is a claim set that fails the other checks. *)
Lemma decode_raise_cases (token : string) (now : Z) (e : exn) :
  jwt_decode token key [alg] now = Raise e ->
  e = JWTError
  \/ (e = TypeError
      /\ signature_matches token
      /\ exists claims,
           carries token claims
           /\ other_claims_valid claims (timegm now) = false
           /\ claims_type_error claims (timegm now) = true).
Proof.
  destruct (decode_stages token now)
    as [->|(signed & crypto_segment & header_seg & claims_seg & payload
            & header & claims & Hr & Hs & Hh & Ha & Hc & Hp & Hj & ->)].
  - intros [= <-]. auto.
  - destruct (other_claims_valid claims (timegm now)) eqn:Hother.
    + destruct (exp_valid claims (timegm now)); intros [= <-]. auto.
    + destruct (claims_type_error claims (timegm now)) eqn:Htype;
        intros [= <-]; [|auto].
      right. split; [reflexivity|]. split.
      * exists signed, crypto_segment. auto.
      * exists claims. split; [|auto].
        exists signed, crypto_segment, header_seg, claims_seg, payload. auto.
Qed.

(** A token whose signature does not match is refused with a [JWTError]. *)
Lemma decode_unsigned (token : string) (now : Z) :
  ~ signature_matches token -> jwt_decode token key [alg] now = Raise JWTError.
Proof.
  intros Hno.
  destruct (decode_stages token now)
    as [H|(signed & crypto_segment & header_seg & claims_seg & payload
           & header & claims & Hr & Hs & Hh & Ha & Hc & Hp & Hj & _)];
    [exact H|].
  exfalso. apply Hno. exists signed, crypto_segment. auto.
Qed.

(** So is a token whose payload segment is no JSON object. *)
Lemma decode_no_payload (token : string) (now : Z) :
  (forall claims, ~ carries token claims) ->
  jwt_decode token key [alg] now = Raise JWTError.
Proof.
  intros Hno.
  destruct (decode_stages token now)
    as [H|(signed & crypto_segment & header_seg & claims_seg & payload
           & header & claims & Hr & Hs & Hh & Ha & Hc & Hp & Hj & _)];
    [exact H|].
  exfalso. apply (Hno claims).
  exists signed, crypto_segment, header_seg, claims_seg, payload. auto.
Qed.

(** *** [verify_jwt_token] *)

Lemma verify_decode_JWTError (token : string) (now : Z) :
  jwt_decode token key [alg] now = Raise JWTError ->
  verify_jwt_token token now = Return None.
Proof. intros H. unfold_verify_jwt_token. rewrite H. reflexivity. Qed.

Lemma verify_decode_TypeError (token : string) (now : Z) :
  jwt_decode token key [alg] now = Raise TypeError ->
  verify_jwt_token token now = Raise TypeError.
Proof. intros H. unfold_verify_jwt_token. rewrite H. reflexivity. Qed.

Lemma verify_decode_raise (token : string) (now : Z) (e : exn) :
  jwt_decode token key [alg] now = Raise e ->
  verify_jwt_token token now = Return None
  \/ verify_jwt_token token now = Raise TypeError.
Proof.
  intros H. destruct (decode_raise_cases _ _ _ H) as [->|[-> _]].
  - left. exact (verify_decode_JWTError _ _ H).
  - right. exact (verify_decode_TypeError _ _ H).
Qed.

Lemma verify_decode_return (token : string) (now : Z) (claims : dict) :
  jwt_decode token key [alg] now = Return claims ->
  verify_jwt_token token now =
  match dict_get "sub" claims with
  | JNull => Return None
  | user_id =>
      let! user :=
        User_new user_id (dict_get "email" claims) (dict_get "name" claims)
                 (dict_get_default "provider" (JStr "unknown") claims) [] in
      Return (Some user)
  end.
Proof.
  intros H. unfold_verify_jwt_token. rewrite H. simpl.
  destruct (dict_get "sub" claims) eqn:Hsub; try reflexivity;
    match goal with
    | |- context [User_new ?a ?b ?c ?d ?l] =>
        destruct (User_new_cases a b c d l) as [[user ->]| ->]; reflexivity
    end.
Qed.

(** [verify_jwt_token] returns a user, returns [None], or lets a
    [ValidationError] or the library's [TypeError] through. *)
Lemma verify_cases (token : string) (now : Z) :
  (exists user, verify_jwt_token token now = Return (Some user))
  \/ verify_jwt_token token now = Return None
  \/ verify_jwt_token token now = Raise ValidationError
  \/ verify_jwt_token token now = Raise TypeError.
Proof.
  destruct (jwt_decode token key [alg] now) as [claims|e] eqn:Hd.
  - rewrite (verify_decode_return _ _ _ Hd).
    destruct (dict_get "sub" claims); auto;
      match goal with
      | |- context [User_new ?a ?b ?c ?d ?l] =>
          destruct (User_new_cases a b c d l) as [[user ->]| ->]; simpl; eauto
      end.
  - destruct (verify_decode_raise _ _ _ Hd) as [-> | ->]; auto.
Qed.

(** A user that [verify_jwt_token] returns is read off accepted claims. *)
Lemma verify_user_claims (token : string) (now : Z) (user : User) :
  verify_jwt_token token now = Return (Some user) ->
  exists claims,
    accepted token now claims
    /\ dict_get "sub" claims = JStr (id user)
    /\ dict_get "email" claims = opt_json (email user)
    /\ dict_get "name" claims = opt_json (name user)
    /\ dict_get_default "provider" (JStr "unknown") claims = JStr (provider user)
    /\ provider_data user = [].
Proof.
  intros Hv.
  destruct (jwt_decode token key [alg] now) as [claims|e] eqn:Hd.
  - exists claims. split; [apply decode_accepted; exact Hd|].
    rewrite (verify_decode_return _ _ _ Hd) in Hv.
    unfold User_new in Hv.
    destruct (dict_get "sub" claims) as [| | |s| |]; simpl in Hv; try discriminate.
    destruct (dict_get "email" claims) as [| | |e| |]; simpl in Hv; try discriminate;
      destruct (dict_get "name" claims) as [| | |n| |]; simpl in Hv; try discriminate;
      destruct (dict_get_default "provider" (JStr "unknown") claims) as [| | |p| |];
      simpl in Hv; try discriminate;
      injection Hv as <-; repeat split.
  - destruct (verify_decode_raise _ _ _ Hd) as [H|H]; rewrite H in Hv; discriminate.
Qed.




(** *** Issued tokens *)

Section Codec.

(** The segment codec decodes what it encoded, and writes no dot. *)
Hypothesis base64url_decode_encode :
  forall s, base64url_decode (base64url_encode s) = Some s.
Hypothesis base64url_dotless :
  forall s, dotless (base64url_encode s) = true.

Lemma rsplit_encoded (claims : dict) :
  rsplit_last (jwt_encode claims key alg)
  = Some (signing_input claims alg,
          base64url_encode (mac alg key (signing_input claims alg))).
Proof. apply rsplit_last_app, base64url_dotless. Qed.

Lemma split_signing_input (claims : dict) :
  split_first (signing_input claims alg)
  = Some (header_segment alg, claims_segment claims).
Proof. apply split_first_app, base64url_dotless. Qed.

(** [jwt.decode] accepts what [jwt.encode] wrote, as long as the JSON
    codec reads the header and the claims back and the claims are
    valid at [now]. *)
Lemma encoded_accepted (claims : dict) (now : Z) :
  json_loads (json_dumps (jws_header alg)) = Some (jws_header alg) ->
  json_loads (json_dumps (JObj claims)) = Some (JObj claims) ->
  (forall exp, dict_lookup "exp" claims = Some (JNum exp) -> timegm now <= exp) ->
  other_claims_valid claims (timegm now) = true ->
  accepted (jwt_encode claims key alg) now claims.
Proof.
  intros Hheader Hclaims Hexp Hother.
  eapply Accepted.
  - apply rsplit_encoded.
  - apply split_signing_input.
  - unfold_header_segment. rewrite base64url_decode_encode. simpl.
    exact Hheader.
  - reflexivity.
  - apply base64url_decode_encode.
  - apply base64url_decode_encode.
  - exact Hclaims.
  - exact Hexp.
  - exact Hother.
Qed.

Lemma timegm_mono (a b : Z) : a <= b -> timegm a <= timegm b.
Proof. intros H. unfold timegm. apply Z.div_le_mono; lia. Qed.

(** C3. A token issued for [user] and verified before its TTL has
    elapsed, under the same settings, yields a user with the same
    [id] (and the same [email], [name] and [provider]); its
    [provider_data] is empty whatever the original held. *)
Theorem verify_create_roundtrip (user : User) (issued now : Z) :
  json_loads (json_dumps (jws_header alg)) = Some (jws_header alg) ->
  json_loads (json_dumps (JObj (to_encode settings user issued)))
  = Some (JObj (to_encode settings user issued)) ->
  other_claims_valid (to_encode settings user issued) (timegm now) = true ->
  now < issued + minutes (jwt_expiration_minutes settings) ->
  exists verified,
    verify_jwt_token (access_token (create_jwt_token user issued)) now
    = Return (Some verified)
    /\ id verified = id user
    /\ email verified = email user
    /\ name verified = name user
    /\ provider verified = provider user
    /\ provider_data verified = [].
Proof.
  intros Hheader Hclaims Hother Hfresh.
  assert (Hacc : accepted (access_token (create_jwt_token user issued)) now
                   (to_encode settings user issued)).
  { apply encoded_accepted; try assumption.
    intros exp [= <-]. apply timegm_mono. lia. }
  apply decode_accepted in Hacc.
  rewrite (verify_decode_return _ _ _ Hacc).
  destruct user as [i [e|] [n|] p data]; simpl; eexists; repeat split.
Qed.

(** The issued token with one byte of its payload segment replaced. *)
Lemma alter_payload (claims : dict) (j : nat) (c : ascii) :
  (j < String.length (claims_segment claims))%nat ->
  alter_byte (S (String.length (header_segment alg)) + j) c
             (jwt_encode claims key alg)
  = (header_segment alg ++ String dot (alter_byte j c (claims_segment claims)))
    ++ String dot (base64url_encode (mac alg key (signing_input claims alg))).
Proof.
  intros Hj.
  change (jwt_encode claims key alg)
    with ((header_segment alg ++ String dot (claims_segment claims))
          ++ String dot (base64url_encode (mac alg key (signing_input claims alg)))).
  rewrite alter_byte_app_l.
  - replace (S (String.length (header_segment alg)) + j)%nat
      with (String.length (header_segment alg) + S j)%nat by lia.
    rewrite alter_byte_app_r. reflexivity.
  - rewrite length_append. simpl. lia.
Qed.

Lemma get_payload (claims : dict) (j : nat) :
  (j < String.length (claims_segment claims))%nat ->
  String.get (S (String.length (header_segment alg)) + j)
             (jwt_encode claims key alg)
  = String.get j (claims_segment claims).
Proof.
  intros Hj.
  change (jwt_encode claims key alg)
    with ((header_segment alg ++ String dot (claims_segment claims))
          ++ String dot (base64url_encode (mac alg key (signing_input claims alg)))).
  rewrite get_app_l by (rewrite length_append; simpl; lia).
  replace (S (String.length (header_segment alg)) + j)%nat
    with (String.length (header_segment alg) + S j)%nat by lia.
  rewrite get_app_r. reflexivity.
Qed.

(** C5. Replacing any one byte of the payload segment of an issued
    token by another byte makes [verify_jwt_token] return [None], at
    any instant: the signature no longer is the MAC of the first two
    segments, provided no other message has the MAC of the issued
    token's first two segments under the configured key. *)
Theorem altered_payload_rejected (user : User) (issued now : Z)
    (i : nat) (c : ascii) :
  (forall m,
      mac alg key m = mac alg key (signing_input (to_encode settings user issued) alg) ->
      m = signing_input (to_encode settings user issued) alg) ->
  let token := access_token (create_jwt_token user issued) in
  let start := S (String.length (header_segment alg)) in
  (start <= i
   < start + String.length (claims_segment (to_encode settings user issued)))%nat ->
  String.get i token <> Some c ->
  verify_jwt_token (alter_byte i c token) now = Return None.
Proof.
  intros Hmac token start Hi Hget. subst token start.
  set (claims := to_encode settings user issued) in *.
  destruct (Nat.le_exists_sub _ _ (proj1 Hi)) as [j [Hj _]].
  rewrite Nat.add_comm in Hj. subst i.
  assert (Hlt : (j < String.length (claims_segment claims))%nat) by lia.
  simpl access_token in *.
  rewrite get_payload in Hget by exact Hlt.
  rewrite alter_payload by exact Hlt.
  pose proof (alter_byte_neq j c _ Hlt Hget) as Hneq.
  apply verify_decode_JWTError, decode_unsigned.
  intros (signed & crypto_segment & Hr & Hc).
  rewrite rsplit_last_app in Hr by apply base64url_dotless.
  injection Hr as <- <-.
  rewrite base64url_decode_encode in Hc. injection Hc as Hc.
  symmetry in Hc. apply Hmac in Hc. apply append_inv_head in Hc.
  injection Hc as Hc. apply Hneq. exact Hc.
Qed.

End Codec.

(** *** [get_current_user] and [auth_status] *)

(** [get_current_user] in terms of the two credentials of the request. *)
Lemma get_current_user_credentials (request : Request) (now_header now_cookie : Z) :
  get_current_user request now_header now_cookie =
  let! from_header :=
    match bearer_token request with
    | Some token => verify_jwt_token token now_header
    | None => Return None
    end in
  match from_header with
  | Some user => Return user
  | None =>
      let! from_cookie :=
        match cookie_token request with
        | Some token => verify_jwt_token token now_cookie
        | None => Return None
        end in
      match from_cookie with
      | Some user => Return user
      | None => Raise not_authenticated
      end
  end.
Proof.
  unfold_get_current_user; unfold bearer_token, cookie_token.
  destruct request as [auth_header cookie].
  cbn [header_Authorization cookie_access_token].
  destruct auth_header as [h|].
  - rewrite nonempty_and_Bearer.
    destruct (String.prefix "Bearer " h); destruct cookie as [[|c t]|];
      reflexivity.
  - destruct cookie as [[|c t]|]; reflexivity.
Qed.

(** C10. The [Authorization] header is tried first and its user is
    returned when its token verifies; a Bearer token that fails
    verification does not end the request, the [access_token] cookie is
    tried next; and 401 is raised exactly when each transport either
    carries no token or carries one that fails verification. *)
Theorem current_user_order (request : Request) (now_header now_cookie : Z) :
  (forall token user,
      bearer_token request = Some token ->
      verify_jwt_token token now_header = Return (Some user) ->
      get_current_user request now_header now_cookie = Return user)
  /\ (forall token token' user,
        bearer_token request = Some token ->
        verify_jwt_token token now_header = Return None ->
        cookie_token request = Some token' ->
        verify_jwt_token token' now_cookie = Return (Some user) ->
        get_current_user request now_header now_cookie = Return user)
  /\ (get_current_user request now_header now_cookie = Raise not_authenticated <->
        (bearer_token request = None
         \/ exists token, bearer_token request = Some token
              /\ verify_jwt_token token now_header = Return None)
        /\ (cookie_token request = None
            \/ exists token, cookie_token request = Some token
                 /\ verify_jwt_token token now_cookie = Return None)).
Proof.
  rewrite get_current_user_credentials.
  split; [|split].
  - intros token user -> ->. reflexivity.
  - intros token token' user -> -> -> ->. reflexivity.
  - destruct (bearer_token request) as [token|] eqn:Hb;
      destruct (cookie_token request) as [token'|] eqn:Hc;
      try (destruct (verify_cases token now_header) as [[user Hv]|[Hv|[Hv|Hv]]];
           rewrite Hv);
      try (destruct (verify_cases token' now_cookie)
             as [[user' Hv']|[Hv'|[Hv'|Hv']]];
           rewrite Hv');
      simpl;
      (split;
       [ intros H; try discriminate H; split; eauto 6
       | intros [[H1|(t1 & H1 & H1')] [H2|(t2 & H2 & H2')]];
         try reflexivity; congruence ]).
Qed.

(** [get_current_user] returns a user, raises 401, or lets a
    [ValidationError] or the library's [TypeError] through. *)
Lemma get_current_user_cases (request : Request) (now_header now_cookie : Z) :
  (exists user, get_current_user request now_header now_cookie = Return user)
  \/ get_current_user request now_header now_cookie = Raise not_authenticated
  \/ get_current_user request now_header now_cookie = Raise ValidationError
  \/ get_current_user request now_header now_cookie = Raise TypeError.
Proof.
  rewrite get_current_user_credentials.
  assert (Hcookie :
    (exists user,
        (let! from_cookie :=
           match cookie_token request with
           | Some token => verify_jwt_token token now_cookie
           | None => Return None
           end in
         match from_cookie with
         | Some user => Return user
         | None => Raise not_authenticated
         end) = Return user)
    \/ (let! from_cookie :=
          match cookie_token request with
          | Some token => verify_jwt_token token now_cookie
          | None => Return None
          end in
        match from_cookie with
        | Some user => Return user
        | None => Raise not_authenticated
        end) = Raise not_authenticated
    \/ (let! from_cookie :=
          match cookie_token request with
          | Some token => verify_jwt_token token now_cookie
          | None => Return None
          end in
        match from_cookie with
        | Some user => Return user
        | None => Raise not_authenticated
        end) = Raise ValidationError
    \/ (let! from_cookie :=
          match cookie_token request with
          | Some token => verify_jwt_token token now_cookie
          | None => Return None
          end in
        match from_cookie with
        | Some user => Return user
        | None => Raise not_authenticated
        end) = Raise TypeError).
  { destruct (cookie_token request) as [token|]; [|simpl; auto].
    destruct (verify_cases token now_cookie) as [[user ->]|[-> |[-> | ->]]];
      simpl; eauto. }
  destruct (bearer_token request) as [token|]; simpl.
  - destruct (verify_cases token now_header) as [[user ->]|[-> |[-> | ->]]];
      simpl; eauto.
  - exact Hcookie.
Qed.

(** The status endpoint answers for every request on which verification
    raises neither a [ValidationError] nor a [TypeError], and then says
    [authenticated: false] with no user exactly when [get_current_user]
    raises 401. *)
Lemma auth_status_cases (request : Request) (now_header now_cookie : Z) :
  (exists user,
      auth_status request now_header now_cookie
      = Return (mkStatusBody true (Some user)))
  \/ auth_status request now_header now_cookie = Return (mkStatusBody false None)
  \/ auth_status request now_header now_cookie = Raise ValidationError
  \/ auth_status request now_header now_cookie = Raise TypeError.
Proof.
  unfold_auth_status.
  destruct (get_current_user_cases request now_header now_cookie)
    as [[user ->]|[-> |[-> | ->]]]; simpl; eauto.
Qed.

End Tokens.

(** ** The subject of a profile *)

Section Profile.

Variable mac : string -> string -> string -> string.
Variable base64url_encode : string -> string.
Variable json_dumps : json -> string.
Variable settings : Settings.

Local Abbreviation finish_callback :=
  (finish_callback mac base64url_encode json_dumps settings).
Local Abbreviation create_jwt_token :=
  (create_jwt_token mac base64url_encode json_dumps settings).

(** An [id] that is absent, null or the empty string is falsy. *)
Lemma falsy_id (user_data : dict) :
  dict_lookup "id" user_data = None
  \/ dict_lookup "id" user_data = Some JNull
  \/ dict_lookup "id" user_data = Some (JStr "") ->
  truthy (dict_get "id" user_data) = false.
Proof. unfold dict_get. intros [-> | [-> | ->]]; reflexivity. Qed.

(** The subject chosen by [auth_callback] when it is a string. *)
Lemma finish_callback_subject (user_data : dict) (now : Z) (subject : string)
    (e n : option string) :
  py_or (dict_get "id" user_data)
        (dict_get_default "sub" (JStr "unknown") user_data) = JStr subject ->
  validate_opt_str (dict_get "email" user_data) = Return e ->
  validate_opt_str (py_or (dict_get "name" user_data)
                          (dict_get "display_name" user_data)) = Return n ->
  finish_callback (JObj user_data) now =
  let user := mkUser subject e n "oauth2" user_data in
  let token := create_jwt_token user now in
  Return (mkCallbackBody "Authentication successful" user token
            (mkCookie "access_token" (access_token token) true
                      (expires_in token) "lax" true)).
Proof.
  intros Hsubject He Hn.
  unfold_finish_callback; unfold user_from_profile, User_new.
  rewrite Hsubject, He, Hn. reflexivity.
Qed.

(** C9. With a well-typed [email] and display name, the callback builds
    its user and token from a profile as follows: a non-empty string
    [id] is the subject; a falsy [id] (absent, null, empty string) is
    passed over for a string [sub]; and with a falsy [id] and no [sub]
    the subject is ["unknown"], so the callback still succeeds and the
    token it issues carries [sub = "unknown"]. *)
Theorem subject_fallback (user_data : dict) (now : Z) (e n : option string) :
  validate_opt_str (dict_get "email" user_data) = Return e ->
  validate_opt_str (py_or (dict_get "name" user_data)
                          (dict_get "display_name" user_data)) = Return n ->
  let subject_is (subject : string) :=
    exists body,
      finish_callback (JObj user_data) now = Return body
      /\ id (cb_user body) = subject
      /\ cb_token body = create_jwt_token (cb_user body) now
      /\ dict_lookup "sub" (to_encode settings (cb_user body) now)
         = Some (JStr subject) in
  (forall s, dict_get "id" user_data = JStr s -> s <> "" -> subject_is s)
  /\ (forall s,
        truthy (dict_get "id" user_data) = false ->
        dict_lookup "sub" user_data = Some (JStr s) ->
        subject_is s)
  /\ (truthy (dict_get "id" user_data) = false ->
      dict_lookup "sub" user_data = None ->
      subject_is "unknown").
Proof.
  intros He Hn subject_is.
  assert (Hdone : forall subject,
    py_or (dict_get "id" user_data)
          (dict_get_default "sub" (JStr "unknown") user_data) = JStr subject ->
    subject_is subject).
  { intros subject Hsubject. eexists. split.
    - exact (finish_callback_subject _ _ _ _ _ Hsubject He Hn).
    - simpl. auto. }
  split; [|split].
  - intros s Hid Hs. apply Hdone. unfold py_or. rewrite Hid. simpl.
    destruct (String.eqb s "") eqn:Heq; [|reflexivity].
    apply String.eqb_eq in Heq. contradiction.
  - intros s Hid Hsub. apply Hdone. unfold py_or, dict_get_default.
    rewrite Hid, Hsub. reflexivity.
  - intros Hid Hsub. apply Hdone. unfold py_or, dict_get_default.
    rewrite Hid, Hsub. reflexivity.
Qed.

End Profile.

(** ** The reference backend meets the assumptions *)

Lemma hex_char_roundtrip (c : ascii) :
  Ref.char_nibble (Ref.nibble_char (N_of_ascii c / 16)) = Some (N_of_ascii c / 16)%N
  /\ Ref.char_nibble (Ref.nibble_char (N_of_ascii c mod 16))
     = Some (N_of_ascii c mod 16)%N
  /\ ascii_of_N (16 * (N_of_ascii c / 16) + N_of_ascii c mod 16) = c.
Proof.
  destruct c as [[] [] [] [] [] [] [] []]; vm_compute; auto.
Qed.

Lemma hex_char_dotless (c : ascii) :
  Ascii.eqb (Ref.nibble_char (N_of_ascii c / 16)) dot = false
  /\ Ascii.eqb (Ref.nibble_char (N_of_ascii c mod 16)) dot = false.
Proof.
  destruct c as [[] [] [] [] [] [] [] []]; vm_compute; auto.
Qed.

Lemma hex_decode_encode (s : string) : Ref.hex_decode (Ref.hex_encode s) = Some s.
Proof.
  induction s as [|c s IH]; [reflexivity|].
  destruct (hex_char_roundtrip c) as (Hhi & Hlo & Hc).
  cbn [Ref.hex_encode Ref.hex_decode]. rewrite Hhi, Hlo, IH, Hc. reflexivity.
Qed.

Lemma hex_dotless (s : string) : dotless (Ref.hex_encode s) = true.
Proof.
  induction s as [|c s IH]; [reflexivity|].
  destruct (hex_char_dotless c) as (Hhi & Hlo).
  cbn [Ref.hex_encode dotless]. rewrite Hhi, Hlo, IH. reflexivity.
Qed.

Lemma ref_mac_injective (algorithm key m m' : string) :
  Ref.mac algorithm key m = Ref.mac algorithm key m' -> m = m'.
Proof.
  unfold Ref.mac. intros H.
  do 4 apply append_inv_head in H. exact H.
Qed.

(** ** Concrete runs *)

(** C3 at a concrete user: issued at second 1, verified at second 5. *)
Lemma verify_create_roundtrip_witness :
  exists verified,
    Ref.verify_jwt_token (access_token (Ref.create_jwt_token Ref.alice 1000000))
                         5000000
    = Return (Some verified)
    /\ id verified = id Ref.alice
    /\ email verified = email Ref.alice
    /\ name verified = name Ref.alice
    /\ provider verified = provider Ref.alice
    /\ provider_data verified = [].
Proof.
  apply (verify_create_roundtrip Ref.mac Ref.hex_encode Ref.hex_decode Ref.dumps
           Ref.loads Ref.other_claims_valid Ref.claims_type_error Ref.settings
           hex_decode_encode hex_dotless Ref.alice 1000000 5000000).
  - vm_compute. reflexivity.
  - vm_compute. reflexivity.
  - reflexivity.
  - vm_compute. reflexivity.
Defined.



(** C5 at a concrete token: the first byte of the payload segment,
    [7], is replaced by [0]. *)
Lemma altered_payload_rejected_witness :
  let token := access_token (Ref.create_jwt_token Ref.alice 1000000) in
  let i := S (String.length (header_segment Ref.hex_encode Ref.dumps "HS256")) in
  String.get i token = Some "7"%char
  /\ Ref.verify_jwt_token (alter_byte i "0" token) 5000000 = Return None.
Proof.
  split; [vm_compute; reflexivity|].
  apply (altered_payload_rejected Ref.mac Ref.hex_encode Ref.hex_decode Ref.dumps
           Ref.loads Ref.other_claims_valid Ref.claims_type_error Ref.settings
           hex_decode_encode hex_dotless Ref.alice 1000000 5000000).
  - intros m. apply ref_mac_injective.
  - vm_compute. lia.
  - vm_compute. discriminate.
Defined.

(** C8. A cookie (or Bearer header) holding a token that is signed with
    the configured key but binds [provider] to null passes [jwt.decode];
    building the [User] then raises a [ValidationError], which neither
    [except JWTError] nor [except HTTPException] catches: the status
    endpoint raises instead of answering. *)
Theorem status_raises_on_null_provider :
  Ref.verify_jwt_token Ref.null_provider_token 0 = Raise ValidationError
  /\ Ref.auth_status (mkRequest None (Some Ref.null_provider_token)) 0 0
     = Raise ValidationError
  /\ Ref.auth_status
       (mkRequest (Some ("Bearer " ++ Ref.null_provider_token)) None) 0 0
     = Raise ValidationError.
Proof.
  repeat split; vm_compute; reflexivity.
Qed.

(** C9 at a concrete callback: the provider's profile has neither [id]
    nor [sub]. *)
Lemma subject_fallback_witness :
  exists body,
    outcome (Ref.auth_callback Ref.anonymous_client "goodcode" "abc123" 1000000
               Ref.one_pending) = Return body
    /\ id (cb_user body) = "unknown"
    /\ dict_lookup "sub" (to_encode Ref.settings (cb_user body) 1000000)
       = Some (JStr "unknown").
Proof.
  destruct (subject_fallback Ref.mac Ref.hex_encode Ref.dumps Ref.settings
              [("email", JStr "a@b.com")] 1000000 (Some "a@b.com") None)
    as (_ & _ & Hunknown); [reflexivity|reflexivity|].
  destruct Hunknown as (body & Hbody & Hid & _ & Hsub); [reflexivity|reflexivity|].
  exists body. split; [|split; assumption].
  unfold Ref.auth_callback.
  rewrite (callback_known_state _ _ _ _ _ _ _ _ _ _ ("pending", 0));
    [|vm_compute; reflexivity].
  exact Hbody.
Defined.

(** C10 at a concrete request: the Bearer token is garbage, the cookie
    holds a token issued for [alice]. *)
Lemma current_user_order_witness :
  let cookie := access_token (Ref.create_jwt_token Ref.alice 1000000) in
  Ref.get_current_user (mkRequest (Some "Bearer garbage") (Some cookie))
                       5000000 5000000
  = Return (mkUser "u1" (Some "a@b.com") None "oauth2" []).
Proof.
  intros cookie.
  apply (proj1 (proj2 (current_user_order Ref.mac Ref.hex_decode Ref.loads
                         Ref.other_claims_valid Ref.claims_type_error Ref.settings
                         (mkRequest (Some "Bearer garbage") (Some cookie))
                         5000000 5000000))
           "garbage" cookie).
  - reflexivity.
  - vm_compute. reflexivity.
  - reflexivity.
  - vm_compute. reflexivity.
Defined.

(** * Further properties *)

Ltac unfold_get_user_profile := unfold get_user_profile.
Ltac unfold_protected_route := unfold protected_route.

(** ** Sweeping the state store *)

(** X1. After [cleanup_expired_sessions] an entry is in [sessions] exactly
    when it was there before and is at most 600 seconds old; an entry that
    is exactly 600 seconds old stays. *)
Theorem sweep_keeps_exactly_fresh (current_time : Z) (sessions : store)
    (k status : string) (created : Z) :
  cleanup_expired_sessions current_time sessions !! k = Some (status, created)
  <-> sessions !! k = Some (status, created)
      /\ current_time - created <= 600 * 1000000.
Proof.
  rewrite cleanup_lookup. split.
  - destruct (sessions !! k) as [entry|]; [|discriminate].
    destruct (expired current_time entry) eqn:Hexp; [discriminate|].
    intros [= ->]. split; [reflexivity|].
    destruct (Z.le_gt_cases (current_time - created) (600 * 1000000)) as [H|H];
      [exact H|].
    apply (expired_spec current_time created status) in H. congruence.
  - intros [-> Hfresh].
    destruct (expired current_time (status, created)) eqn:Hexp; [|reflexivity].
    apply expired_spec in Hexp. lia.
Qed.

Lemma expired_max (t1 t2 : Z) (entry : string * Z) :
  expired (Z.max t1 t2) entry = expired t1 entry || expired t2 entry.
Proof.
  unfold expired.
  destruct (Z.ltb_spec (600 * 1000000) (Z.max t1 t2 - entry.2));
    destruct (Z.ltb_spec (600 * 1000000) (t1 - entry.2));
    destruct (Z.ltb_spec (600 * 1000000) (t2 - entry.2)); simpl; lia.
Qed.

(** X2. Two sweeps amount to one sweep at the later of their instants, in
    whichever order they run; in particular sweeping twice at one instant
    changes nothing more. *)
Theorem sweep_compose (t1 t2 : Z) (sessions : store) :
  cleanup_expired_sessions t2 (cleanup_expired_sessions t1 sessions)
  = cleanup_expired_sessions (Z.max t1 t2) sessions.
Proof.
  apply map_eq. intros k. rewrite !cleanup_lookup.
  destruct (sessions !! k) as [entry|]; [|reflexivity].
  rewrite expired_max.
  destruct (expired t1 entry); simpl; reflexivity.
Qed.

(** ** Logins, callbacks and the store *)

Section Flow.

Variable mac : string -> string -> string -> string.
Variable base64url_encode : string -> string.
Variable json_dumps : json -> string.
Variable urlencode : list (string * string) -> string.
Variable settings : Settings.
Variable lax_int : json -> option Z.

Local Abbreviation auth_callback :=
  (auth_callback mac base64url_encode json_dumps settings lax_int).
Local Abbreviation create_jwt_token :=
  (create_jwt_token mac base64url_encode json_dumps settings).
Local Abbreviation login := (login urlencode settings).
Local Abbreviation step := (step mac base64url_encode json_dumps urlencode settings lax_int).
Local Abbreviation run_events :=
  (run_events mac base64url_encode json_dumps urlencode settings lax_int).

(** X3. [login] sends nothing to the provider and leaves in [sessions]:
    the new state as [("pending", created)], also when that state was
    stored before, and of the other entries exactly those at most 600
    seconds old. *)
Theorem login_store (current_time created : Z) (state : string)
    (sessions : store) (k : string) :
  requests_sent (login current_time created state sessions) = []
  /\ sessions_after (login current_time created state sessions) !! k =
     if decide (k = state) then Some ("pending", created)
     else match sessions !! k with
          | Some entry => if expired current_time entry then None else Some entry
          | None => None
          end.
Proof.
  split; [reflexivity|]. simpl.
  destruct (decide (k = state)) as [->|Hne].
  - apply lookup_insert_eq.
  - rewrite lookup_insert_ne by congruence. apply cleanup_lookup.
Qed.

Lemma step_lookup_origin (e : event) (sessions : store) (k : string)
    (entry : string * Z) :
  step e sessions !! k = Some entry ->
  sessions !! k = Some entry
  \/ exists current_time created,
       e = Login current_time created k /\ entry = ("pending", created).
Proof.
  destruct e as [current_time created state|client code state now]; simpl.
  - destruct (decide (state = k)) as [->|Hne].
    + rewrite lookup_insert_eq. intros [= <-]. right. eauto.
    + rewrite lookup_insert_ne by exact Hne. rewrite cleanup_lookup.
      destruct (sessions !! k) as [entry'|]; [|discriminate].
      destruct (expired current_time entry'); [discriminate|]. auto.
  - rewrite callback_sessions_after. intros H.
    apply lookup_delete_Some in H as [_ H]. auto.
Qed.

(** X4. Whatever logins and callbacks have run, every entry of [sessions]
    either was there from the start, unchanged, or was stored by a login
    that drew its key as state, with status ["pending"] and that login's
    timestamp: callbacks add nothing and nothing rewrites an entry. *)
Theorem store_entries_from_logins (events : list event) (sessions : store)
    (k status : string) (created : Z) :
  run_events events sessions !! k = Some (status, created) ->
  sessions !! k = Some (status, created)
  \/ (status = "pending"
      /\ exists current_time, In (Login current_time created k) events).
Proof.
  revert sessions. induction events as [|e events IH]; intros sessions; simpl.
  - auto.
  - intros H. apply IH in H as [H|[Hstatus [current_time Hin]]].
    + apply step_lookup_origin in H as [H|(current_time & created' & -> & [= -> ->])].
      * auto.
      * right. split; [reflexivity|]. exists current_time. left. reflexivity.
    + right. split; [exact Hstatus|]. exists current_time. right. exact Hin.
Qed.

Lemma exchange_cases (client : AsyncClient) (code : string) :
  (exchange settings lax_int client code).2 = [token_request settings code]
  /\ (forall user_data, (exchange settings lax_int client code).1 <> Return user_data)
  \/ exists fields oauth_token,
       checked_json (send client (token_request settings code))
       = Return (JObj fields)
       /\ OAuth2Token_new lax_int fields = Return oauth_token
       /\ exchange settings lax_int client code
          = (checked_json (send client (user_info_request settings oauth_token)),
             [token_request settings code;
              user_info_request settings oauth_token]).
Proof.
  unfold exchange.
  destruct (checked_json (send client (token_request settings code)))
    as [token_data|e]; [|left; split; [reflexivity|discriminate]].
  destruct token_data as [| | | | |fields];
    try (left; split; [reflexivity|discriminate]).
  destruct (OAuth2Token_new lax_int fields) as [oauth_token|e] eqn:Htok.
  - right. exists fields, oauth_token. auto.
  - left. split; [reflexivity|discriminate].
Qed.

(** X5. A callback sends nothing when its state is unknown, and otherwise
    the token request alone or the token request followed by one
    user-info request; the user-info request is only sent after a 2xx
    token response that validates as an [OAuth2Token], and carries that
    token's [access_token] in its [Authorization: Bearer] header. *)
Theorem callback_requests (client : AsyncClient) (code state : string)
    (now : Z) (sessions : store) :
  let sent := requests_sent (auth_callback client code state now sessions) in
  (sent = [] <-> sessions !! state = None)
  /\ (sent = []
      \/ sent = [token_request settings code]
      \/ exists fields oauth_token,
           checked_json (send client (token_request settings code))
           = Return (JObj fields)
           /\ OAuth2Token_new lax_int fields = Return oauth_token
           /\ sent = [token_request settings code;
                      Get (oauth2_user_info_url settings)
                          [("Authorization",
                            "Bearer " ++ oauth_access_token oauth_token)]]).
Proof.
  intros sent. subst sent.
  destruct (sessions !! state) as [entry|] eqn:Hstate.
  - rewrite (callback_known_state _ _ _ _ _ _ _ _ _ _ _ Hstate). simpl.
    split.
    + split; [|discriminate].
      destruct (exchange_sends_token_request settings lax_int client code) as [rest ->].
      discriminate.
    + right.
      destruct (exchange_cases client code)
        as [[-> _]|(fields & oauth_token & Hjson & Htok & ->)].
      * left. reflexivity.
      * right. exists fields, oauth_token. auto.
  - rewrite (callback_refused _ _ _ _ _ _ _ _ _ _ Hstate). simpl.
    split; [split; reflexivity|left; reflexivity].
Qed.

(** X6. The successful path of the callback: for a stored state, a 2xx
    token response that validates and a 2xx profile that builds a [User],
    the callback deletes the state, sends exactly the two requests, and
    returns that user (provider ["oauth2"], the whole profile as
    [provider_data]) with a token issued for it and an [access_token]
    cookie holding the token, HTTP-only, secure, SameSite lax, with
    [max_age] the configured minutes times 60. *)
Theorem callback_success (client : AsyncClient) (code state : string)
    (now : Z) (sessions : store) (entry : string * Z)
    (fields profile : dict) (oauth_token : OAuth2Token) (user : User) :
  sessions !! state = Some entry ->
  checked_json (send client (token_request settings code)) = Return (JObj fields) ->
  OAuth2Token_new lax_int fields = Return oauth_token ->
  checked_json (send client (user_info_request settings oauth_token))
  = Return (JObj profile) ->
  user_from_profile profile = Return user ->
  provider user = "oauth2"
  /\ provider_data user = profile
  /\ auth_callback client code state now sessions
     = mkRun
         (Return
            (mkCallbackBody "Authentication successful" user
               (create_jwt_token user now)
               (mkCookie "access_token" (access_token (create_jwt_token user now))
                         true (Some (jwt_expiration_minutes settings * 60))
                         "lax" true)))
         (delete state sessions)
         [token_request settings code; user_info_request settings oauth_token].
Proof.
  intros Hstate Hjson Htok Hprofile Huser.
  assert (Hshape : provider user = "oauth2" /\ provider_data user = profile).
  { unfold user_from_profile, User_new in Huser.
    destruct (validate_str _) as [i|]; [|discriminate].
    destruct (validate_opt_str (dict_get "email" profile)) as [e|]; [|discriminate].
    destruct (validate_opt_str _) as [n|]; [|discriminate].
    simpl in Huser. injection Huser as <-. split; reflexivity. }
  destruct Hshape as [Hprovider Hdata]. split; [exact Hprovider|].
  split; [exact Hdata|].
  rewrite (callback_known_state _ _ _ _ _ _ _ _ _ _ _ Hstate).
  unfold exchange. cbv zeta. rewrite Hjson. cbv beta iota. rewrite Htok.
  cbv beta iota. cbn [fst snd]. rewrite Hprofile. cbn [except_HTTPError bind].
  unfold_finish_callback. rewrite Huser. reflexivity.
Qed.

(** X7. Only [httpx.HTTPError] is turned into a 500: when the token
    response is 2xx but its body is not JSON, is not a JSON object, or
    does not validate as an [OAuth2Token], the callback raises an
    exception that is no [HTTPException], after deleting the state and
    having sent the token request only. *)
Theorem callback_malformed_token_response (client : AsyncClient)
    (code state : string) (now : Z) (sessions : store) (entry : string * Z)
    (status_code : Z) (body : option json) :
  sessions !! state = Some entry ->
  send client (token_request settings code) = Response status_code body ->
  is_success status_code = true ->
  (forall fields oauth_token,
      body = Some (JObj fields) ->
      OAuth2Token_new lax_int fields <> Return oauth_token) ->
  let r := auth_callback client code state now sessions in
  (exists e, outcome r = Raise e
             /\ (e = JSONDecodeError \/ e = TypeError \/ e = ValidationError))
  /\ sessions_after r = delete state sessions
  /\ requests_sent r = [token_request settings code].
Proof.
  intros Hstate Hreply Hok Hbad r. subst r.
  rewrite (callback_known_state _ _ _ _ _ _ _ _ _ _ _ Hstate). simpl.
  unfold exchange. rewrite Hreply. simpl. rewrite Hok.
  destruct body as [[| | | | |fields]|]; simpl;
    try (split; [eexists; split; [reflexivity|auto]|split; reflexivity]).
  destruct (OAuth2Token_new_cases lax_int fields) as [[oauth_token Htok]|Htok].
  - exfalso. exact (Hbad fields oauth_token eq_refl Htok).
  - rewrite Htok. simpl.
    split; [eexists; split; [reflexivity|auto]|split; reflexivity].
Qed.

End Flow.

(** ** The name and the subject of a profile *)

Section Names.

Variable mac : string -> string -> string -> string.
Variable base64url_encode : string -> string.
Variable json_dumps : json -> string.
Variable settings : Settings.

Local Abbreviation finish_callback :=
  (finish_callback mac base64url_encode json_dumps settings).

Lemma finish_callback_name (profile : dict) (now : Z) (i : string)
    (e n : option string) :
  validate_str (py_or (dict_get "id" profile)
                      (dict_get_default "sub" (JStr "unknown") profile))
  = Return i ->
  validate_opt_str (dict_get "email" profile) = Return e ->
  validate_opt_str (py_or (dict_get "name" profile)
                          (dict_get "display_name" profile)) = Return n ->
  exists body,
    finish_callback (JObj profile) now = Return body /\ name (cb_user body) = n.
Proof.
  intros Hi He Hn. unfold_finish_callback. unfold user_from_profile, User_new.
  rewrite Hi, He, Hn. simpl. eauto.
Qed.

(** X8. With a usable subject and [email], the display name of the
    user built by the callback is the profile's [name] when that is a
    non-empty string; when [name] is falsy (absent, null, empty) it is the
    string [display_name], even an empty one; and it is [None] when
    [display_name] is absent or null too. *)
Theorem display_name_fallback (profile : dict) (now : Z) (i : string)
    (e : option string) :
  validate_str (py_or (dict_get "id" profile)
                      (dict_get_default "sub" (JStr "unknown") profile))
  = Return i ->
  validate_opt_str (dict_get "email" profile) = Return e ->
  let named (n : option string) :=
    exists body,
      finish_callback (JObj profile) now = Return body
      /\ name (cb_user body) = n in
  (forall s, dict_get "name" profile = JStr s -> s <> "" -> named (Some s))
  /\ (forall s,
        truthy (dict_get "name" profile) = false ->
        dict_lookup "display_name" profile = Some (JStr s) ->
        named (Some s))
  /\ (truthy (dict_get "name" profile) = false ->
      dict_get "display_name" profile = JNull ->
      named None).
Proof.
  intros Hi He named. subst named. cbv beta.
  split; [|split].
  - intros s Hname Hs. apply (finish_callback_name _ _ _ _ _ Hi He).
    unfold py_or. rewrite Hname. simpl.
    destruct (String.eqb s "") eqn:Heq; [|reflexivity].
    apply String.eqb_eq in Heq. contradiction.
  - intros s Hname Hdisplay. apply (finish_callback_name _ _ _ _ _ Hi He).
    unfold py_or. rewrite Hname. unfold dict_get. rewrite Hdisplay. reflexivity.
  - intros Hname Hdisplay. apply (finish_callback_name _ _ _ _ _ Hi He).
    unfold py_or. rewrite Hname, Hdisplay. reflexivity.
Qed.

(** X9. A truthy [id] that is not a string, such as a number, is not
    passed over for [sub]: the [User] cannot be built and the callback
    raises a [ValidationError], whatever [sub] holds. *)
Theorem nonstring_id_rejected (profile : dict) (now : Z) :
  truthy (dict_get "id" profile) = true ->
  (forall s, dict_get "id" profile <> JStr s) ->
  finish_callback (JObj profile) now = Raise ValidationError.
Proof.
  intros Htruthy Hnot. unfold_finish_callback.
  unfold user_from_profile, User_new, py_or. rewrite Htruthy.
  destruct (dict_get "id" profile) as [| | |s| |]; try reflexivity.
  exfalso. exact (Hnot s eq_refl).
Qed.

End Names.

(** ** Strings: the Bearer prefix and counting dots *)

Lemma prefix_app (p s : string) :
  String.prefix p s = true -> exists rest, s = p ++ rest.
Proof.
  revert s. induction p as [|a p IH]; intros s.
  - exists s. reflexivity.
  - destruct s as [|b s]; simpl; [discriminate|].
    destruct (ascii_dec a b) as [->|]; [|discriminate].
    intros H. apply IH in H as [rest ->]. exists rest. reflexivity.
Qed.

Lemma spaceless_no_Bearer (s : string) :
  spaceless s = true -> String.prefix "Bearer " s = false.
Proof.
  intros Hs. destruct (String.prefix "Bearer " s) eqn:Hp; [|reflexivity].
  apply prefix_app in Hp as [rest ->]. vm_compute in Hs. discriminate.
Qed.

Lemma drop_bearer_spaceless (s : string) :
  spaceless s = true -> drop_bearer 0 s = s.
Proof.
  induction s as [|c s IH]; [reflexivity|].
  intros Hs. pose proof (spaceless_no_Bearer _ Hs) as Hp.
  simpl in Hs. apply andb_prop in Hs as [_ Hs].
  cbn [drop_bearer]. rewrite Hp, (IH Hs). reflexivity.
Qed.

Lemma prefix_Bearer (t : string) : String.prefix "Bearer " ("Bearer " ++ t) = true.
Proof. destruct t; reflexivity. Qed.

Lemma drop_bearer_occurrence (c : ascii) (rest : string) :
  String.prefix "Bearer " (String c rest) = true ->
  drop_bearer 0 (String c rest) = drop_bearer 6 rest.
Proof. intros H. cbn [drop_bearer]. rewrite H. reflexivity. Qed.

Lemma replace_bearer_leading (t : string) :
  replace_bearer ("Bearer " ++ t) = replace_bearer t.
Proof.
  unfold replace_bearer.
  change (drop_bearer 0 ("Bearer " ++ t))
    with (drop_bearer 0 (String "B" ("earer " ++ t))).
  rewrite (drop_bearer_occurrence "B" ("earer " ++ t) (prefix_Bearer t)).
  reflexivity.
Qed.

Lemma replace_bearer_spaceless (t : string) :
  spaceless t = true -> replace_bearer ("Bearer " ++ t) = t.
Proof.
  intros Hs. rewrite replace_bearer_leading. apply drop_bearer_spaceless. exact Hs.
Qed.

(** X10. [replace] drops the leading [Bearer ] of a header and also every
    later occurrence of it: the token read from [Bearer t] is [t] with its
    own occurrences removed, and it is [t] itself when [t] holds no
    space. *)
Theorem bearer_prefix_stripped (t : string) :
  replace_bearer ("Bearer " ++ t) = replace_bearer t
  /\ (spaceless t = true -> replace_bearer ("Bearer " ++ t) = t).
Proof.
  split; [apply replace_bearer_leading|apply replace_bearer_spaceless].
Qed.

Lemma rsplit_last_count (s a b : string) :
  rsplit_last s = Some (a, b) ->
  count_dots s = (count_dots a + 1 + count_dots b)%nat.
Proof.
  revert a b. induction s as [|c s IH]; intros a b; simpl; [discriminate|].
  destruct (rsplit_last s) as [[a' b']|].
  - intros [= <- <-]. simpl. rewrite (IH a' b' eq_refl).
    destruct (Ascii.eqb c dot); lia.
  - destruct (Ascii.eqb c dot); [|discriminate].
    intros [= <- <-]. simpl. lia.
Qed.

Lemma split_first_no_dot (s : string) :
  count_dots s = O -> split_first s = None.
Proof.
  induction s as [|c s IH]; simpl; [reflexivity|].
  destruct (Ascii.eqb c dot); [discriminate|].
  intros H. rewrite (IH H). reflexivity.
Qed.

(** ** More on session tokens *)

Section Lifetime.

Variable mac : string -> string -> string -> string.
Variable base64url_encode : string -> string.
Variable base64url_decode : string -> option string.
Variable json_dumps : json -> string.
Variable json_loads : string -> option json.
Variable other_claims_valid : dict -> Z -> bool.
Variable claims_type_error : dict -> Z -> bool.
Variable settings : Settings.

Local Abbreviation jwt_encode := (jwt_encode mac base64url_encode json_dumps).
Local Abbreviation jwt_decode :=
  (jwt_decode mac base64url_decode json_loads other_claims_valid
     claims_type_error).
Local Abbreviation signing_input := (signing_input base64url_encode json_dumps).
Local Abbreviation create_jwt_token :=
  (create_jwt_token mac base64url_encode json_dumps settings).
Local Abbreviation verify_jwt_token :=
  (verify_jwt_token mac base64url_decode json_loads other_claims_valid
     claims_type_error settings).
Local Abbreviation get_current_user :=
  (get_current_user mac base64url_decode json_loads other_claims_valid
     claims_type_error settings).
Local Abbreviation auth_status :=
  (auth_status mac base64url_decode json_loads other_claims_valid
     claims_type_error settings).
Local Abbreviation get_user_profile :=
  (get_user_profile mac base64url_decode json_loads other_claims_valid
     claims_type_error settings).
Local Abbreviation protected_route :=
  (protected_route mac base64url_decode json_loads other_claims_valid
     claims_type_error settings).
Local Abbreviation accepted :=
  (accepted mac base64url_decode json_loads other_claims_valid settings).
Local Abbreviation key := (jwt_secret_key settings).
Local Abbreviation alg := (jwt_algorithm settings).

Lemma timegm_add_minutes (now m : Z) : timegm (now + minutes m) = timegm now + m * 60.
Proof.
  unfold timegm, minutes.
  replace (now + m * 60 * 1000000) with (now + (m * 60) * 1000000) by lia.
  apply Z.div_add. lia.
Qed.

(** X11. The [exp] claim of an issued token is the issue instant's whole
    second plus exactly the [expires_in] seconds the token declares, for
    every configured number of minutes. *)
Theorem exp_matches_expires_in (user : User) (now : Z) :
  exists exp seconds,
    dict_lookup "exp" (to_encode settings user now) = Some (JNum exp)
    /\ expires_in (create_jwt_token user now) = Some seconds
    /\ exp = timegm now + seconds
    /\ seconds = jwt_expiration_minutes settings * 60.
Proof.
  exists (timegm (now + minutes (jwt_expiration_minutes settings))),
         (jwt_expiration_minutes settings * 60).
  repeat split. apply timegm_add_minutes.
Qed.

(** X12. A user returned by [verify_jwt_token] is read off an accepted
    token: its [id], [email] and [name] are the claims [sub], [email] and
    [name], its [provider] is the claim [provider] or ["unknown"] when the
    claim is absent, and its [provider_data] is empty. *)
Theorem verify_sound (token : string) (now : Z) (user : User) :
  verify_jwt_token token now = Return (Some user) ->
  exists claims,
    accepted token now claims
    /\ dict_get "sub" claims = JStr (id user)
    /\ dict_get "email" claims = opt_json (email user)
    /\ dict_get "name" claims = opt_json (name user)
    /\ dict_get_default "provider" (JStr "unknown") claims = JStr (provider user)
    /\ provider_data user = [].
Proof.
  intros Hv. exact (verify_user_claims _ _ _ _ _ _ _ _ _ Hv).
Qed.

(** X13. An accepted token without a [provider] claim still verifies:
    with a string [sub] and well-typed [email] and [name], the user is
    returned with provider ["unknown"]. *)
Theorem verify_provider_default (token : string) (now : Z) (claims : dict)
    (subject : string) (e n : option string) :
  accepted token now claims ->
  dict_get "sub" claims = JStr subject ->
  validate_opt_str (dict_get "email" claims) = Return e ->
  validate_opt_str (dict_get "name" claims) = Return n ->
  dict_lookup "provider" claims = None ->
  verify_jwt_token token now = Return (Some (mkUser subject e n "unknown" [])).
Proof.
  intros Hacc Hsub He Hn Hprovider.
  apply (decode_accepted mac base64url_decode json_loads other_claims_valid
           claims_type_error settings) in Hacc.
  rewrite (verify_decode_return _ _ _ _ _ _ _ _ _ Hacc), Hsub.
  unfold User_new, dict_get_default. rewrite He, Hn, Hprovider. reflexivity.
Qed.

(** X14. A string with fewer than two dots, the empty string included, is
    never a token: [verify_jwt_token] returns [None]. *)
Theorem verify_rejects_missing_dots (token : string) (now : Z) :
  (count_dots token < 2)%nat ->
  verify_jwt_token token now = Return None.
Proof.
  intros Hdots. apply verify_decode_JWTError, decode_no_payload.
  intros claims (signed & crypto_segment & header_seg & claims_seg & payload
                 & Hr & Hs & _).
  apply rsplit_last_count in Hr.
  rewrite split_first_no_dot in Hs by lia. discriminate.
Qed.


(** X16. A request with no [Authorization] header, or one that does not
    start with [Bearer ], and with no or an empty [access_token] cookie is
    not authenticated: [/auth/me] and [/protected] answer 401 and the
    status endpoint says [authenticated: false]. *)
Theorem no_credentials_unauthenticated (request : Request)
    (now_header now_cookie : Z) :
  (header_Authorization request = None
   \/ exists h, header_Authorization request = Some h
        /\ String.prefix "Bearer " h = false) ->
  (cookie_access_token request = None
   \/ cookie_access_token request = Some "") ->
  get_user_profile request now_header now_cookie
  = Raise (HTTPException 401 "Not authenticated")
  /\ protected_route request now_header now_cookie
     = Raise (HTTPException 401 "Not authenticated")
  /\ auth_status request now_header now_cookie = Return (mkStatusBody false None).
Proof.
  intros Hheader Hcookie.
  unfold_get_user_profile. unfold_protected_route.
  unfold_auth_status.
  rewrite get_current_user_credentials.
  assert (Hb : bearer_token request = None).
  { unfold bearer_token. destruct Hheader as [-> |(h & -> & ->)]; reflexivity. }
  assert (Hc : cookie_token request = None).
  { unfold cookie_token. destruct Hcookie as [-> | ->]; reflexivity. }
  rewrite Hb, Hc. repeat split.
Qed.

End Lifetime.

(** ** Issued tokens, from the callback to later requests *)

Section Issued.

Variable mac : string -> string -> string -> string.
Variable base64url_encode : string -> string.
Variable base64url_decode : string -> option string.
Variable json_dumps : json -> string.
Variable json_loads : string -> option json.
Variable other_claims_valid : dict -> Z -> bool.
Variable claims_type_error : dict -> Z -> bool.
Variable settings : Settings.
Variable lax_int : json -> option Z.

Hypothesis base64url_decode_encode :
  forall s, base64url_decode (base64url_encode s) = Some s.
Hypothesis base64url_dotless :
  forall s, dotless (base64url_encode s) = true.

Local Abbreviation jwt_encode := (jwt_encode mac base64url_encode json_dumps).
Local Abbreviation jwt_decode :=
  (jwt_decode mac base64url_decode json_loads other_claims_valid
     claims_type_error).
Local Abbreviation signing_input := (signing_input base64url_encode json_dumps).
Local Abbreviation create_jwt_token :=
  (create_jwt_token mac base64url_encode json_dumps settings).
Local Abbreviation verify_jwt_token :=
  (verify_jwt_token mac base64url_decode json_loads other_claims_valid
     claims_type_error settings).
Local Abbreviation get_current_user :=
  (get_current_user mac base64url_decode json_loads other_claims_valid
     claims_type_error settings).
Local Abbreviation auth_status :=
  (auth_status mac base64url_decode json_loads other_claims_valid
     claims_type_error settings).
Local Abbreviation auth_callback :=
  (auth_callback mac base64url_encode json_dumps settings lax_int).
Local Abbreviation key := (jwt_secret_key settings).
Local Abbreviation alg := (jwt_algorithm settings).

(** The user as a token carries it: without [provider_data]. *)
Local Abbreviation in_token user :=
  (mkUser (id user) (email user) (name user) (provider user) []).

Lemma issued_verifies (user : User) (issued now : Z) :
  json_loads (json_dumps (jws_header alg)) = Some (jws_header alg) ->
  json_loads (json_dumps (JObj (to_encode settings user issued)))
  = Some (JObj (to_encode settings user issued)) ->
  other_claims_valid (to_encode settings user issued) (timegm now) = true ->
  timegm now <= timegm issued + jwt_expiration_minutes settings * 60 ->
  verify_jwt_token (access_token (create_jwt_token user issued)) now
  = Return (Some (in_token user)).
Proof.
  intros Hheader Hclaims Hother Hfresh.
  assert (Hacc : accepted mac base64url_decode json_loads other_claims_valid
                   settings (access_token (create_jwt_token user issued)) now
                   (to_encode settings user issued)).
  { apply (encoded_accepted _ _ _ _ _ _ _ base64url_decode_encode
             base64url_dotless); try assumption.
    intros exp [= <-]. rewrite timegm_add_minutes. exact Hfresh. }
  apply (decode_accepted mac base64url_decode json_loads other_claims_valid
           claims_type_error settings) in Hacc.
  rewrite (verify_decode_return _ _ _ _ _ _ _ _ _ Hacc).
  destruct user as [i [e|] [n|] p data]; reflexivity.
Qed.

Lemma issued_expired (user : User) (issued now : Z) :
  json_loads (json_dumps (JObj (to_encode settings user issued)))
  = Some (JObj (to_encode settings user issued)) ->
  other_claims_valid (to_encode settings user issued) (timegm now) = true ->
  timegm issued + jwt_expiration_minutes settings * 60 < timegm now ->
  verify_jwt_token (access_token (create_jwt_token user issued)) now = Return None.
Proof.
  intros Hclaims Hother Hlate. apply verify_decode_JWTError.
  destruct (decode_stages mac base64url_decode json_loads other_claims_valid
              claims_type_error settings
              (access_token (create_jwt_token user issued)) now)
    as [H|(signed & crypto_segment & header_seg & claims_seg & payload
           & header & claims & Hr & Hs & _ & _ & _ & Hp & Hj & Hd)];
    [exact H|].
  simpl access_token in Hr.
  rewrite (rsplit_encoded mac base64url_encode json_dumps settings
             base64url_dotless) in Hr.
  injection Hr as <- <-.
  rewrite (split_signing_input base64url_encode json_dumps settings
             base64url_dotless) in Hs.
  injection Hs as <- <-.
  unfold claims_segment in Hp. rewrite base64url_decode_encode in Hp.
  injection Hp as <-. rewrite Hclaims in Hj. injection Hj as <-.
  rewrite Hd, Hother.
  destruct (exp_valid (to_encode settings user issued) (timegm now)) eqn:Hexp;
    [|reflexivity].
  exfalso.
  pose proof (proj1 (exp_valid_spec _ _) Hexp _ eq_refl) as Hle.
  rewrite timegm_add_minutes in Hle. lia.
Qed.

(** X17. The lifetime of an issued token, in whole seconds: it verifies,
    giving back its user without [provider_data], at every instant whose
    second is at most the issue second plus 60 times the configured
    minutes, and it is refused at every later instant. *)
Theorem issued_token_lifetime (user : User) (issued now : Z) :
  json_loads (json_dumps (jws_header alg)) = Some (jws_header alg) ->
  json_loads (json_dumps (JObj (to_encode settings user issued)))
  = Some (JObj (to_encode settings user issued)) ->
  other_claims_valid (to_encode settings user issued) (timegm now) = true ->
  verify_jwt_token (access_token (create_jwt_token user issued)) now =
  if Z.leb (timegm now) (timegm issued + jwt_expiration_minutes settings * 60)
  then Return (Some (in_token user))
  else Return None.
Proof.
  intros Hheader Hclaims Hother.
  destruct (Z.leb_spec (timegm now)
              (timegm issued + jwt_expiration_minutes settings * 60)) as [H|H].
  - apply issued_verifies; assumption.
  - apply issued_expired; assumption.
Qed.

(** X18. Replacing any one byte of the signed part of an issued token,
    header segment, separating dot or payload segment, by another byte
    makes [verify_jwt_token] return [None], provided no other message has
    the MAC of that signed part under the configured key. *)
Theorem altered_signed_part_rejected (user : User) (issued now : Z)
    (i : nat) (c : ascii) :
  (forall m,
      mac alg key m = mac alg key (signing_input (to_encode settings user issued) alg) ->
      m = signing_input (to_encode settings user issued) alg) ->
  let token := access_token (create_jwt_token user issued) in
  (i < String.length (signing_input (to_encode settings user issued) alg))%nat ->
  String.get i token <> Some c ->
  verify_jwt_token (alter_byte i c token) now = Return None.
Proof.
  intros Hmac token Hi Hget. subst token. simpl access_token in *.
  set (signed := signing_input (to_encode settings user issued) alg) in *.
  change (jwt_encode (to_encode settings user issued) key alg)
    with (signed ++ String dot (base64url_encode (mac alg key signed))) in *.
  rewrite get_app_l in Hget by exact Hi.
  rewrite alter_byte_app_l by exact Hi.
  pose proof (alter_byte_neq i c signed Hi Hget) as Hneq.
  apply verify_decode_JWTError, decode_unsigned.
  intros (signed' & crypto_segment & Hr & Hc).
  rewrite rsplit_last_app in Hr by apply base64url_dotless.
  injection Hr as <- <-.
  rewrite base64url_decode_encode in Hc. injection Hc as Hc.
  symmetry in Hc. apply Hmac in Hc. exact (Hneq Hc).
Qed.

Lemma callback_returns (client : AsyncClient) (code state : string)
    (now : Z) (sessions : store) (body : CallbackBody) :
  outcome (auth_callback client code state now sessions) = Return body ->
  cb_token body = create_jwt_token (cb_user body) now
  /\ cb_cookie body
     = mkCookie "access_token" (access_token (cb_token body)) true
                (Some (jwt_expiration_minutes settings * 60)) "lax" true.
Proof.
  unfold_auth_callback.
  destruct (sessions !! state); [|discriminate].
  destruct (exchange settings lax_int client code) as [fetched sent]. simpl.
  destruct (except_HTTPError fetched) as [user_data|e]; [|discriminate]. simpl.
  unfold_finish_callback.
  destruct user_data as [| | | | |fields]; try discriminate.
  destruct (user_from_profile fields) as [user|e]; [|discriminate]. simpl.
  intros [= <-]. split; reflexivity.
Qed.

Lemma jwt_encode_nonempty (claims : dict) :
  exists c rest, jwt_encode claims key alg = String c rest.
Proof.
  change (jwt_encode claims key alg)
    with (signing_input claims alg
          ++ String dot (base64url_encode (mac alg key (signing_input claims alg)))).
  destruct (signing_input claims alg) as [|a signed]; simpl; eauto.
Qed.

(** X19. The cookie set by a callback that returned authenticates later
    requests: until the whole second of the callback plus 60 times the
    configured minutes, a request carrying that cookie and no
    [Authorization] header is the callback's user (without
    [provider_data]) for [get_current_user], and the status endpoint says
    [authenticated: true] with that user. *)
Theorem callback_cookie_authenticates (client : AsyncClient)
    (code state : string) (issued : Z) (sessions : store) (body : CallbackBody)
    (now_header now : Z) :
  outcome (auth_callback client code state issued sessions) = Return body ->
  json_loads (json_dumps (jws_header alg)) = Some (jws_header alg) ->
  json_loads (json_dumps (JObj (to_encode settings (cb_user body) issued)))
  = Some (JObj (to_encode settings (cb_user body) issued)) ->
  other_claims_valid (to_encode settings (cb_user body) issued) (timegm now) = true ->
  timegm now <= timegm issued + jwt_expiration_minutes settings * 60 ->
  let request := mkRequest None (Some (cookie_value (cb_cookie body))) in
  get_current_user request now_header now = Return (in_token (cb_user body))
  /\ auth_status request now_header now
     = Return (mkStatusBody true (Some (in_token (cb_user body)))).
Proof.
  intros Hbody Hheader Hclaims Hother Hfresh request. subst request.
  destruct (callback_returns _ _ _ _ _ _ Hbody) as [Htoken Hcookie].
  assert (Hget : get_current_user
                   (mkRequest None (Some (cookie_value (cb_cookie body))))
                   now_header now
                 = Return (in_token (cb_user body))).
  { rewrite get_current_user_credentials. rewrite Hcookie, Htoken.
    unfold bearer_token, cookie_token. simpl.
    destruct (jwt_encode_nonempty (to_encode settings (cb_user body) issued))
      as (c & rest & Hne).
    pose proof (issued_verifies (cb_user body) issued now
                  Hheader Hclaims Hother Hfresh) as Hv.
    simpl access_token in Hv. rewrite Hne in *. rewrite Hv. reflexivity. }
  split; [exact Hget|].
  unfold_auth_status. rewrite Hget. reflexivity.
Qed.

Lemma spaceless_app (a b : string) :
  spaceless (a ++ b) = spaceless a && spaceless b.
Proof.
  induction a as [|c a IH]; simpl; [reflexivity|].
  rewrite IH. apply andb_assoc.
Qed.

(** X20. An issued token presented as [Authorization: Bearer <token>]
    authenticates its user whatever the cookie holds, during the token's
    lifetime, provided the segment codec writes no space (so that
    [replace] removes the prefix only). *)
Theorem bearer_issued_token_authenticates (user : User) (issued now : Z)
    (cookie : option string) (now_cookie : Z) :
  (forall s, spaceless (base64url_encode s) = true) ->
  json_loads (json_dumps (jws_header alg)) = Some (jws_header alg) ->
  json_loads (json_dumps (JObj (to_encode settings user issued)))
  = Some (JObj (to_encode settings user issued)) ->
  other_claims_valid (to_encode settings user issued) (timegm now) = true ->
  timegm now <= timegm issued + jwt_expiration_minutes settings * 60 ->
  get_current_user
    (mkRequest (Some ("Bearer " ++ access_token (create_jwt_token user issued)))
               cookie)
    now now_cookie
  = Return (in_token user).
Proof.
  intros Hspace Hheader Hclaims Hother Hfresh.
  rewrite get_current_user_credentials.
  unfold bearer_token. cbn [header_Authorization].
  rewrite prefix_Bearer.
  assert (Htoken : spaceless (access_token (create_jwt_token user issued)) = true).
  { simpl access_token.
    change (jwt_encode (to_encode settings user issued) key alg)
      with ((header_segment base64url_encode json_dumps alg
             ++ String dot (claims_segment base64url_encode json_dumps
                              (to_encode settings user issued)))
            ++ String dot
                 (base64url_encode
                    (mac alg key (signing_input (to_encode settings user issued) alg)))).
    rewrite !spaceless_app. cbn [spaceless].
    unfold header_segment, claims_segment. rewrite !Hspace. reflexivity. }
  rewrite (replace_bearer_spaceless _ Htoken).
  rewrite (issued_verifies user issued now Hheader Hclaims Hother Hfresh).
  reflexivity.
Qed.

End Issued.

(** ** Further concrete runs *)

Lemma hex_char_spaceless (c : ascii) :
  Ascii.eqb (Ref.nibble_char (N_of_ascii c / 16)) " " = false
  /\ Ascii.eqb (Ref.nibble_char (N_of_ascii c mod 16)) " " = false.
Proof.
  destruct c as [[] [] [] [] [] [] [] []]; vm_compute; auto.
Qed.

Lemma hex_spaceless (s : string) : spaceless (Ref.hex_encode s) = true.
Proof.
  induction s as [|c s IH]; [reflexivity|].
  destruct (hex_char_spaceless c) as (Hhi & Hlo).
  cbn [Ref.hex_encode spaceless]. rewrite Hhi, Hlo, IH. reflexivity.
Qed.

(** X4 at a concrete run: one login from the empty store. *)
Lemma store_entries_from_logins_witness :
  (∅ : store) !! "abc123" = Some ("pending", 1000000)
  \/ ("pending" = "pending"
      /\ exists current_time,
           In (Login current_time 1000000 "abc123") [Login 1000000 1000000 "abc123"]).
Proof.
  apply (store_entries_from_logins Ref.mac Ref.hex_encode Ref.dumps Ref.urlencode
           Ref.settings Ref.lax_int [Login 1000000 1000000 "abc123"] ∅ "abc123" "pending"
           1000000).
  vm_compute. reflexivity.
Defined.

(** X6 at a concrete callback. *)
Lemma callback_success_witness :
  exists user,
    id user = "u1"
    /\ outcome (Ref.auth_callback Ref.good_client "goodcode" "abc123" 1000000
                  Ref.one_pending)
       = Return
           (mkCallbackBody "Authentication successful" user
              (Ref.create_jwt_token user 1000000)
              (mkCookie "access_token"
                 (access_token (Ref.create_jwt_token user 1000000))
                 true (Some 1800) "lax" true)).
Proof.
  exists Ref.alice. split; [reflexivity|].
  destruct (callback_success Ref.mac Ref.hex_encode Ref.dumps Ref.settings Ref.lax_int
              Ref.good_client "goodcode" "abc123" 1000000 Ref.one_pending
              ("pending", 0)
              [("access_token", JStr "tok"); ("token_type", JStr "bearer")]
              [("id", JStr "u1"); ("email", JStr "a@b.com")]
              (mkOAuth2Token "tok" "bearer" None None None) Ref.alice)
    as (_ & _ & Hrun);
    [reflexivity|reflexivity|reflexivity|reflexivity|reflexivity|].
  unfold Ref.auth_callback. rewrite Hrun. reflexivity.
Defined.

(** X7 at a concrete callback: the token endpoint answers 200 with a body
    that is not JSON. *)
Lemma callback_malformed_token_response_witness :
  outcome (Ref.auth_callback Ref.html_client "goodcode" "abc123" 1000000
             Ref.one_pending) = Raise JSONDecodeError
  /\ sessions_after (Ref.auth_callback Ref.html_client "goodcode" "abc123" 1000000
                       Ref.one_pending) !! "abc123" = None.
Proof.
  destruct (callback_malformed_token_response Ref.mac Ref.hex_encode Ref.dumps
              Ref.settings Ref.lax_int Ref.html_client "goodcode" "abc123" 1000000
              Ref.one_pending ("pending", 0) 200 None)
    as ((e & He & _) & Hstore & _).
  - vm_compute. reflexivity.
  - reflexivity.
  - reflexivity.
  - discriminate.
  - split.
    + reflexivity.
    + unfold Ref.auth_callback. rewrite Hstore. apply lookup_delete_eq.
Defined.

(** X8 at a concrete profile: no [name], a [display_name]. *)
Lemma display_name_fallback_witness :
  exists body,
    finish_callback Ref.mac Ref.hex_encode Ref.dumps Ref.settings
      (JObj [("id", JStr "u1"); ("display_name", JStr "Forty Two")]) 1000000
    = Return body
    /\ name (cb_user body) = Some "Forty Two".
Proof.
  destruct (display_name_fallback Ref.mac Ref.hex_encode Ref.dumps Ref.settings
              [("id", JStr "u1"); ("display_name", JStr "Forty Two")] 1000000
              "u1" None) as (_ & Hdisplay & _); [reflexivity|reflexivity|].
  apply (Hdisplay "Forty Two"); reflexivity.
Defined.

(** X9 at a concrete profile: a numeric [id] beside a string [sub]. *)
Lemma nonstring_id_rejected_witness :
  outcome (Ref.auth_callback Ref.numeric_client "goodcode" "abc123" 1000000
             Ref.one_pending) = Raise ValidationError.
Proof.
  unfold Ref.auth_callback.
  rewrite (callback_known_state _ _ _ _ _ _ _ _ _ _ ("pending", 0));
    [|vm_compute; reflexivity].
  apply (nonstring_id_rejected Ref.mac Ref.hex_encode Ref.dumps Ref.settings
           [("id", JNum 42); ("sub", JStr "s42");
            ("display_name", JStr "Forty Two")] 1000000).
  - reflexivity.
  - discriminate.
Defined.

(** X10 at a concrete header. *)
Lemma bearer_prefix_stripped_witness :
  replace_bearer ("Bearer " ++ "abc.def.ghi") = "abc.def.ghi".
Proof.
  apply (proj2 (bearer_prefix_stripped "abc.def.ghi")). reflexivity.
Defined.

(** X12 at a concrete token: whoever a token issued for [alice] verifies
    as has the claim [sub = "u1"]. *)
Lemma verify_sound_witness :
  exists claims,
    accepted Ref.mac Ref.hex_decode Ref.loads Ref.other_claims_valid Ref.settings
      (access_token (Ref.create_jwt_token Ref.alice 1000000)) 5000000 claims
    /\ dict_get "sub" claims = JStr "u1".
Proof.
  destruct (verify_sound Ref.mac Ref.hex_decode Ref.loads Ref.other_claims_valid Ref.claims_type_error
              Ref.settings (access_token (Ref.create_jwt_token Ref.alice 1000000))
              5000000 (mkUser "u1" (Some "a@b.com") None "oauth2" []))
    as (claims & Hacc & Hsub & _).
  - vm_compute. reflexivity.
  - exists claims. split; assumption.
Defined.

(** X13 at a concrete token: signed claims with a [sub] only. *)
Lemma verify_provider_default_witness :
  Ref.verify_jwt_token Ref.legacy_token 0
  = Return (Some (mkUser "u1" None None "unknown" [])).
Proof.
  apply (verify_provider_default Ref.mac Ref.hex_decode Ref.loads
           Ref.other_claims_valid Ref.claims_type_error Ref.settings Ref.legacy_token 0
           [("sub", JStr "u1")] "u1" None None); try reflexivity.
  apply (decode_accepted Ref.mac Ref.hex_decode Ref.loads Ref.other_claims_valid
           Ref.claims_type_error Ref.settings).
  vm_compute. reflexivity.
Defined.

(** X14 at concrete strings: the empty cookie value and a word. *)
Lemma verify_rejects_missing_dots_witness :
  Ref.verify_jwt_token "" 0 = Return None
  /\ Ref.verify_jwt_token "garbage" 0 = Return None.
Proof.
  split;
    apply (verify_rejects_missing_dots Ref.mac Ref.hex_decode Ref.loads
             Ref.other_claims_valid Ref.claims_type_error Ref.settings); simpl; lia.
Defined.


(** X16 at the request of the repository's tests: no header, no cookie. *)
Lemma no_credentials_unauthenticated_witness :
  Ref.get_user_profile (mkRequest None None) 0 0
  = Raise (HTTPException 401 "Not authenticated")
  /\ Ref.protected_route (mkRequest None None) 0 0
     = Raise (HTTPException 401 "Not authenticated")
  /\ Ref.auth_status (mkRequest None None) 0 0 = Return (mkStatusBody false None).
Proof.
  apply (no_credentials_unauthenticated Ref.mac Ref.hex_decode Ref.loads
           Ref.other_claims_valid Ref.claims_type_error Ref.settings (mkRequest None None) 0 0);
    left; reflexivity.
Defined.

(** X17 at a concrete token: issued in second 1 for 30 minutes, verified
    in second 1801 and refused in second 1802. *)
Lemma issued_token_lifetime_witness :
  Ref.verify_jwt_token (access_token (Ref.create_jwt_token Ref.alice 1000000))
                       1801999999
  = Return (Some (mkUser "u1" (Some "a@b.com") None "oauth2" []))
  /\ Ref.verify_jwt_token (access_token (Ref.create_jwt_token Ref.alice 1000000))
                          1802000000
     = Return None.
Proof.
  split.
  - apply (issued_token_lifetime Ref.mac Ref.hex_encode Ref.hex_decode Ref.dumps
             Ref.loads Ref.other_claims_valid Ref.claims_type_error Ref.settings
             hex_decode_encode hex_dotless Ref.alice 1000000 1801999999);
      vm_compute; reflexivity.
  - apply (issued_token_lifetime Ref.mac Ref.hex_encode Ref.hex_decode Ref.dumps
             Ref.loads Ref.other_claims_valid Ref.claims_type_error Ref.settings
             hex_decode_encode hex_dotless Ref.alice 1000000 1802000000);
      vm_compute; reflexivity.
Defined.

(** X18 at a concrete token: the first byte of the header segment,
    [7], is replaced by [0]. *)
Lemma altered_signed_part_rejected_witness :
  let token := access_token (Ref.create_jwt_token Ref.alice 1000000) in
  String.get 0 token = Some "7"%char
  /\ Ref.verify_jwt_token (alter_byte 0 "0" token) 5000000 = Return None.
Proof.
  split; [vm_compute; reflexivity|].
  apply (altered_signed_part_rejected Ref.mac Ref.hex_encode Ref.hex_decode
           Ref.dumps Ref.loads Ref.other_claims_valid Ref.claims_type_error Ref.settings
           hex_decode_encode hex_dotless Ref.alice 1000000 5000000).
  - intros m. apply ref_mac_injective.
  - vm_compute. lia.
  - vm_compute. discriminate.
Defined.

(** X19 at a concrete flow: the callback of [good_client] at second 1,
    its cookie presented at second 5. *)
Lemma callback_cookie_authenticates_witness :
  exists body,
    outcome (Ref.auth_callback Ref.good_client "goodcode" "abc123" 1000000
               Ref.one_pending) = Return body
    /\ Ref.auth_status
         (mkRequest None (Some (cookie_value (cb_cookie body)))) 5000000 5000000
       = Return (mkStatusBody true
                   (Some (mkUser "u1" (Some "a@b.com") None "oauth2" []))).
Proof.
  eexists. split; [reflexivity|].
  refine (proj2 (callback_cookie_authenticates Ref.mac Ref.hex_encode
                   Ref.hex_decode Ref.dumps Ref.loads Ref.other_claims_valid
                   Ref.claims_type_error Ref.settings Ref.lax_int
                   hex_decode_encode hex_dotless Ref.good_client
                   "goodcode" "abc123" 1000000 Ref.one_pending _ 5000000 5000000
                   _ _ _ _ _)).
  - reflexivity.
  - vm_compute. reflexivity.
  - vm_compute. reflexivity.
  - reflexivity.
  - vm_compute. discriminate.
Defined.

(** X20 at a concrete request: the token in the header, garbage in the
    cookie. *)
Lemma bearer_issued_token_authenticates_witness :
  Ref.get_current_user
    (mkRequest
       (Some ("Bearer " ++ access_token (Ref.create_jwt_token Ref.alice 1000000)))
       (Some "garbage"))
    5000000 5000000
  = Return (mkUser "u1" (Some "a@b.com") None "oauth2" []).
Proof.
  apply (bearer_issued_token_authenticates Ref.mac Ref.hex_encode Ref.hex_decode
           Ref.dumps Ref.loads Ref.other_claims_valid Ref.claims_type_error Ref.settings
           hex_decode_encode hex_dotless Ref.alice 1000000 5000000
           (Some "garbage") 5000000).
  - apply hex_spaceless.
  - vm_compute. reflexivity.
  - vm_compute. reflexivity.
  - reflexivity.
  - vm_compute. discriminate.
Defined.

(** ** The size of the state store *)

Lemma size_delete_le (k : string) (sessions : store) :
  (size (delete k sessions) <= size sessions)%nat.
Proof.
  rewrite map_size_delete. destruct (sessions !! k); simpl; lia.
Qed.

Lemma size_cleanup_le (current_time : Z) (sessions : store) :
  (size (cleanup_expired_sessions current_time sessions) <= size sessions)%nat.
Proof.
  unfold cleanup_expired_sessions.
  induction (expired_states current_time sessions) as [|k l IH]; simpl.
  - lia.
  - pose proof (size_delete_le k (foldr delete sessions l)). lia.
Qed.

Section StoreSize.

Variable mac : string -> string -> string -> string.
Variable base64url_encode : string -> string.
Variable json_dumps : json -> string.
Variable urlencode : list (string * string) -> string.
Variable settings : Settings.
Variable lax_int : json -> option Z.

Local Abbreviation step := (step mac base64url_encode json_dumps urlencode settings lax_int).
Local Abbreviation run_events :=
  (run_events mac base64url_encode json_dumps urlencode settings lax_int).

Lemma step_size (e : event) (sessions : store) :
  (size (step e sessions) <= size sessions + count_logins [e])%nat.
Proof.
  destruct e as [current_time created state|client code state now]; simpl.
  - rewrite map_size_insert.
    pose proof (size_cleanup_le current_time sessions).
    destruct (cleanup_expired_sessions current_time sessions !! state);
      simpl; lia.
  - rewrite callback_sessions_after.
    pose proof (size_delete_le state sessions). lia.
Qed.

(** X21. [sessions] grows by at most one entry per login and never
    through a callback: after any sequence of requests it holds at most as
    many entries as it started with plus the number of logins. *)
Theorem store_size_bound (events : list event) (sessions : store) :
  (size (run_events events sessions) <= size sessions + count_logins events)%nat.
Proof.
  revert sessions. induction events as [|e events IH]; intros sessions; simpl.
  - lia.
  - specialize (IH (step e sessions)).
    pose proof (step_size e sessions) as Hstep.
    destruct e; simpl in *; lia.
Qed.

End StoreSize.
